(** * MGNREGA district-data service: cache, staleness and fallback policy

    A shallow embedding of [services/mgnrega_service.py] together with the
    parts of [models.py] and [services/data_gov_client.py] it relies on.

    Conventions of the embedding.
    - A [datetime] is the number of microseconds elapsed since
      0001-01-01T00:00:00, a [timedelta] a number of microseconds.
    - SQL [Integer] columns are [Z]; SQL [Float] columns and Python floats are
      exact rationals ([Q]): arithmetic is the arithmetic of the formulas, not
      IEEE rounding, so infinities and NaN have no counterpart here.
    - A nullable column is an [option]; [None] is SQL NULL / Python [None].
    - A table is the list of its rows in rowid order; the columns [id],
      [created_at] and [error_message], which the service neither reads nor
      assigns, are left out.
    - Service methods run in a state-and-exception monad over [World]: the
      committed store, the Session's uncommitted view, and counters that index
      the three sources of nondeterminism (clock, commit failures, adapter). *)

From Stdlib Require Import ZArith QArith Qround Qminmax String List Bool Lia Lqa.
Import ListNotations.

Local Open Scope Z_scope.

(** ** Time *)

Definition datetime := Z.
Definition timedelta := Z.

Definition timedelta_hours (h : Z) : timedelta := h * 3600 * 1000000.

(** Days in 400, 100 and 4 years, as in CPython's [datetime] module. *)
Definition DI400Y : Z := 146097.
Definition DI100Y : Z := 36524.
Definition DI4Y : Z := 1461.

(** The year of a proleptic Gregorian ordinal (day 1 is 0001-01-01). *)
Definition ord2year (n : Z) : Z :=
  let n := n - 1 in
  let n400 := n / DI400Y in
  let n := n mod DI400Y in
  let y := n400 * 400 + 1 in
  let n100 := n / DI100Y in
  let n := n mod DI100Y in
  let n4 := n / DI4Y in
  let n := n mod DI4Y in
  let n1 := n / 365 in
  let y := y + n100 * 100 + n4 * 4 + n1 in
  if (n1 =? 4) || (n100 =? 4) then y - 1 else y.

Definition toordinal (t : datetime) : Z := t / 86400000000 + 1.

(** [datetime.year] *)
Definition year_of (t : datetime) : Z := ord2year (toordinal t).

(** ** Python values *)

Inductive exn : Type :=
| TypeError
| ZeroDivisionError
| SQLAlchemyError.

Inductive outcome (A : Type) : Type :=
| Ret (a : A)
| Raise (e : exn).
Arguments Ret {A} a.
Arguments Raise {A} e.

(** [x or 0] on a nullable float: [None] and [0.0] are falsy. *)
Definition or0 (x : option Q) : Q :=
  match x with
  | Some v => if Qeq_bool v 0 then 0%Q else v
  | None => 0%Q
  end.

(** [x or 0] on a nullable integer. *)
Definition or0Z (x : option Z) : Z :=
  match x with
  | Some v => if v =? 0 then 0 else v
  | None => 0
  end.

(** [min(a, b)] returns [b] only when [b < a]. *)
Definition py_min (a b : Q) : Q :=
  match Qcompare b a with
  | Lt => b
  | _ => a
  end.

(** [a / b] on floats raises on a zero divisor. *)
Definition truediv (a b : Q) : outcome Q :=
  if Qeq_bool b 0 then Raise ZeroDivisionError else Ret (a / b)%Q.

(** Nearest integer, ties to even. *)
Definition round_half_even (x : Q) : Z :=
  let f := Qfloor x in
  match Qcompare (x - inject_Z f) (1 # 2) with
  | Lt => f
  | Gt => f + 1
  | Eq => if Z.even f then f else f + 1
  end.

(** [round(x, ndigits)] for [ndigits >= 0]. *)
Definition round (x : Q) (ndigits : Z) : Q :=
  let scale := inject_Z (10 ^ ndigits) in
  Qred (inject_Z (round_half_even (x * scale)) / scale).

(** ** models.py *)

(** The sixteen metric columns of [DistrictData]. *)
Record Metrics : Type := mkMetrics {
  total_job_cards : option Z;
  active_job_cards : option Z;
  total_workers : option Z;
  active_workers : option Z;
  total_person_days : option Q;
  average_days_per_household : option Q;
  households_completed_100_days : option Z;
  total_expenditure : option Q;
  wage_expenditure : option Q;
  material_expenditure : option Q;
  average_wage_rate : option Q;
  total_works : option Z;
  completed_works : option Z;
  ongoing_works : option Z;
  employment_provided_percentage : option Q;
  timely_payment_percentage : option Q
}.

Module DistrictData.
Record t : Type := mk {
  district_code : string;
  district_name : string;
  state_name : string;
  year : Z;
  metrics : Metrics;
  data_source : option string;
  last_updated : option datetime;
  is_cached : option bool
}.
End DistrictData.

Module DistrictStats.
Record t : Type := mk {
  district_code : string;
  district_name : string;
  state_name : string;
  performance_score : option Q;
  employment_rank : option Z;
  expenditure_rank : option Z;
  employment_trend : option Q;
  expenditure_trend : option Q;
  state_average_comparison : option Q;
  national_average_comparison : option Q;
  total_beneficiaries : option Z;
  total_investment : option Q;
  calculation_date : option datetime;
  last_updated : option datetime
}.
End DistrictStats.

Module CacheStatus.
Record t : Type := mk {
  data_type : string;
  last_api_fetch : option datetime;
  last_successful_fetch : option datetime;
  total_records : option Z;
  failed_attempts : option Z;
  is_stale : option bool;
  api_status : option string;
  updated_at : option datetime
}.

(** [CacheStatus(data_type=...)]: column defaults are applied by the INSERT,
    so every other attribute of the new object reads [None]. *)
Definition new (dt : string) : t :=
  mk dt None None None None None None None.
End CacheStatus.

Record Db : Type := mkDb {
  district_data : list DistrictData.t;
  district_stats : list DistrictStats.t;
  cache_status : list CacheStatus.t
}.

Definition empty_db : Db := mkDb [] [] [].

(** ** The world the service runs in *)

Record World : Type := mkWorld {
  store : Db;                       (* rows durably committed *)
  session : Db;                     (* the Session's view, with pending changes *)
  ticks : nat;                      (* readings of datetime.now() so far *)
  commits : nat;                    (* commit attempts so far *)
  api_calls : list (string * Z)     (* adapter invocations, latest first *)
}.

Definition initial_world : World := mkWorld empty_db empty_db 0 0 [].

(** The values one run of [_generate_sample_district_data] draws from the
    seeded [random] module, in the order it draws them. *)
Record Draws : Type := mkDraws {
  base_population : Z;          (* randint(500000, 2000000) *)
  rural_share : Q;              (* uniform(0.6, 0.8) *)
  job_card_share : Q;           (* uniform(0.15, 0.25) *)
  active_card_share : Q;        (* uniform(0.4, 0.7) *)
  workers_per_card : Q;         (* uniform(1.8, 2.5) *)
  active_worker_share : Q;      (* uniform(0.3, 0.6) *)
  days_per_worker : Q;          (* uniform(40, 90) *)
  completed_100_share : Q;      (* uniform(0.1, 0.3) *)
  wage_rate : Q;                (* uniform(180, 220) *)
  wage_share : Q;               (* uniform(0.6, 0.75) *)
  works_per_card : Q;           (* uniform(0.8, 1.5) *)
  completed_works_share : Q;    (* uniform(0.6, 0.85) *)
  timely_payment : Q            (* uniform(70, 95) *)
}.

(** What the service cannot control: the k-th clock reading, whether the k-th
    commit fails, and whether the k-th adapter call produces its sample
    ([None]: an exception inside the adapter's [try] block). *)
Record Env : Type := mkEnv {
  clock : nat -> datetime;
  commit_fails : nat -> bool;
  source : nat -> option Draws
}.

Definition M (A : Type) : Type := World -> outcome A * World.

Definition ret {A} (a : A) : M A := fun w => (Ret a, w).

Definition bind {A B} (c : M A) (k : A -> M B) : M B :=
  fun w =>
    match c w with
    | (Ret a, w') => k a w'
    | (Raise e, w') => (Raise e, w')
    end.

Definition raise {A} (e : exn) : M A := fun w => (Raise e, w).

(** [try: c  except Exception as e: h e] *)
Definition try_except {A} (c : M A) (h : exn -> M A) : M A :=
  fun w =>
    match c w with
    | (Ret a, w') => (Ret a, w')
    | (Raise e, w') => h e w'
    end.

Definition lift {A} (o : outcome A) : M A := fun w => (o, w).

Declare Scope m_scope.
Delimit Scope m_scope with m.
Notation "x <- c ;; k" := (bind c (fun x => k))
  (at level 61, c at next level, right associativity) : m_scope.
Notation "c ;;; k" := (bind c (fun _ => k))
  (at level 61, right associativity) : m_scope.
Local Open Scope m_scope.

Definition with_session (d : Db) (w : World) : World :=
  mkWorld (store w) d (ticks w) (commits w) (api_calls w).

Definition get_session : M Db := fun w => (Ret (session w), w).
Definition put_session (d : Db) : M unit := fun w => (Ret tt, with_session d w).

(** ** data_gov_client.py *)

(** The dict returned by the adapter.  [is_cached] is [None] when the key is
    absent from the dict (the one key the service guards with [setdefault]);
    every other key is present. *)
Module Fetched.
Record t : Type := mk {
  district_code : string;
  district_name : string;
  state_name : string;
  year : Z;
  metrics : Metrics;
  data_source : option string;
  is_cached : option bool
}.
End Fetched.

Definition district_names : list (string * string) :=
  [("AP001", "Anantapur"); ("AP002", "Chittoor"); ("AS001", "Kamrup");
   ("BR001", "Patna"); ("BR002", "Gaya"); ("CG001", "Raipur");
   ("DL001", "Central Delhi"); ("GJ001", "Ahmedabad"); ("HR001", "Gurgaon");
   ("HP001", "Shimla"); ("JH001", "Ranchi"); ("KA001", "Bangalore Urban");
   ("KL001", "Thiruvananthapuram"); ("MP001", "Bhopal"); ("MH001", "Mumbai");
   ("MH002", "Pune"); ("OR001", "Khordha"); ("PB001", "Ludhiana");
   ("RJ001", "Jaipur"); ("TN001", "Chennai"); ("TG001", "Hyderabad");
   ("UP001", "Lucknow"); ("UP002", "Kanpur Nagar"); ("WB001", "Kolkata")]%string.

Definition state_names : list (string * string) :=
  [("AP", "Andhra Pradesh"); ("AS", "Assam"); ("BR", "Bihar");
   ("CG", "Chhattisgarh"); ("DL", "Delhi"); ("GJ", "Gujarat");
   ("HR", "Haryana"); ("HP", "Himachal Pradesh"); ("JH", "Jharkhand");
   ("KA", "Karnataka"); ("KL", "Kerala"); ("MP", "Madhya Pradesh");
   ("MH", "Maharashtra"); ("OR", "Odisha"); ("PB", "Punjab");
   ("RJ", "Rajasthan"); ("TN", "Tamil Nadu"); ("TG", "Telangana");
   ("UP", "Uttar Pradesh"); ("WB", "West Bengal")]%string.

(** [d.get(k, default)] *)
Fixpoint dict_get (d : list (string * string)) (k default : string) : string :=
  match d with
  | [] => default
  | (k', v) :: rest => if String.eqb k' k then v else dict_get rest k default
  end.

(** [int(x)]: truncation towards zero. *)
Definition int (x : Q) : Z :=
  if Qle_bool 0 x then Qfloor x else Qceiling x.

Definition _generate_sample_district_data
    (district_code : string) (year : Z) (r : Draws) : Fetched.t :=
  let rural_population := int (inject_Z (base_population r) * rural_share r) in
  let total_job_cards := int (inject_Z rural_population * job_card_share r) in
  let active_job_cards := int (inject_Z total_job_cards * active_card_share r) in
  let total_workers := int (inject_Z active_job_cards * workers_per_card r) in
  let active_workers := int (inject_Z total_workers * active_worker_share r) in
  let total_person_days := int (inject_Z active_workers * days_per_worker r) in
  let average_days_per_household :=
    (inject_Z total_person_days / inject_Z (Z.max active_job_cards 1))%Q in
  let households_completed_100_days :=
    int (inject_Z active_job_cards * completed_100_share r) in
  let total_expenditure :=
    (inject_Z total_person_days * wage_rate r / 100000)%Q in
  let wage_expenditure := (total_expenditure * wage_share r)%Q in
  let material_expenditure := (total_expenditure - wage_expenditure)%Q in
  let total_works := int (inject_Z active_job_cards * works_per_card r) in
  let completed_works := int (inject_Z total_works * completed_works_share r) in
  let ongoing_works := total_works - completed_works in
  let employment_provided_percentage :=
    py_min (average_days_per_household / 100 * 100)%Q 100%Q in
  let district_name :=
    dict_get district_names district_code ("District " ++ district_code) in
  let state_code := substring 0 2 district_code in
  let state_name := dict_get state_names state_code ("State " ++ state_code) in
  Fetched.mk district_code district_name state_name year
    (mkMetrics
       (Some total_job_cards) (Some active_job_cards)
       (Some total_workers) (Some active_workers)
       (Some (inject_Z total_person_days))
       (Some (round average_days_per_household 2))
       (Some households_completed_100_days)
       (Some (round total_expenditure 2))
       (Some (round wage_expenditure 2))
       (Some (round material_expenditure 2))
       (Some (round (wage_rate r) 2))
       (Some total_works) (Some completed_works) (Some ongoing_works)
       (Some (round employment_provided_percentage 2))
       (Some (round (timely_payment r) 2)))
    (Some "data.gov.in"%string)
    (Some true).

(** ** mgnrega_service.py: response dicts *)

(** The dict built by [_format_district_data]. *)
Module Formatted.
Record t : Type := mk {
  district_code : string;
  district_name : string;
  state_name : string;
  year : Z;
  metrics : Metrics;
  last_updated : option datetime;
  is_cached : option bool;
  data_source : option string
}.
End Formatted.

Definition _format_district_data (district_data : DistrictData.t) : Formatted.t :=
  Formatted.mk
    (DistrictData.district_code district_data)
    (DistrictData.district_name district_data)
    (DistrictData.state_name district_data)
    (DistrictData.year district_data)
    (DistrictData.metrics district_data)
    (DistrictData.last_updated district_data)
    (DistrictData.is_cached district_data)
    (DistrictData.data_source district_data).

(** The row object [.first()] returned is the first row that satisfies the
    filter; assigning its attributes rewrites that row in place. *)
Fixpoint update_first {A} (p : A -> bool) (f : A -> A) (l : list A) : list A :=
  match l with
  | [] => []
  | x :: rest => if p x then f x :: rest else x :: update_first p f rest
  end.

Definition same_key (district_code : string) (year : Z) (r : DistrictData.t) : bool :=
  String.eqb (DistrictData.district_code r) district_code
  && (DistrictData.year r =? year).

(** [for key, value in data.items(): setattr(existing, key, value)], then
    [existing.last_updated = now].  Every key of the payload names a column,
    the key columns included, so the [hasattr] test always passes. *)
Definition overwrite (existing : DistrictData.t) (data : Fetched.t)
    (now : datetime) : DistrictData.t :=
  DistrictData.mk
    (Fetched.district_code data)
    (Fetched.district_name data)
    (Fetched.state_name data)
    (Fetched.year data)
    (Fetched.metrics data)
    (Fetched.data_source data)
    (Some now)
    (match Fetched.is_cached data with
     | Some b => Some b
     | None => DistrictData.is_cached existing
     end).

(** The new [DistrictData] object built from the payload, with the key
    forced to the requested one
    and [is_cached] defaulting to [True], then [last_updated = now]. *)
Definition create (data : Fetched.t) (district_code : string) (year : Z)
    (now : datetime) : DistrictData.t :=
  DistrictData.mk
    district_code
    (Fetched.district_name data)
    (Fetched.state_name data)
    year
    (Fetched.metrics data)
    (Fetched.data_source data)
    (Some now)
    (Some (match Fetched.is_cached data with
           | Some b => b
           | None => true
           end)).

Definition with_district_data (rows : list DistrictData.t) (d : Db) : Db :=
  mkDb rows (district_stats d) (cache_status d).

(** ** mgnrega_service.py: statistics *)

(** The dict built by [_calculate_district_stats]. *)
Module Stats.
Record t : Type := mk {
  district_name : string;
  state_name : string;
  performance_score : Q;
  employment_rank : Z;
  expenditure_rank : Z;
  employment_trend : Q;
  expenditure_trend : Q;
  state_average_comparison : Q;
  national_average_comparison : Q;
  total_beneficiaries : Z;
  total_investment : Q;
  calculation_date : datetime
}.
End Stats.

(** What [get_district_stats] hands back: the dict of
    [_format_district_stats], which carries every column of the row, or the
    dict just computed. *)
Inductive StatsResponse : Type :=
| FormattedStats (row : DistrictStats.t)
| ComputedStats (stats : Stats.t).

Definition _format_district_stats (district_stats : DistrictStats.t)
  : StatsResponse := FormattedStats district_stats.

(** [order_by(desc(DistrictData.year))]: a stable sort, largest year first. *)
Fixpoint insert_desc (r : DistrictData.t) (l : list DistrictData.t)
  : list DistrictData.t :=
  match l with
  | [] => [r]
  | x :: rest =>
      if DistrictData.year x <=? DistrictData.year r
      then r :: x :: rest
      else x :: insert_desc r rest
  end.

Definition order_by_year_desc (l : list DistrictData.t) : list DistrictData.t :=
  fold_right insert_desc [] l.

Definition has_code (district_code : string) (r : DistrictData.t) : bool :=
  String.eqb (DistrictData.district_code r) district_code.

(** The query of [_calculate_district_stats]. *)
Definition recent_data_of (district_code : string) (d : Db) : list DistrictData.t :=
  firstn 3 (order_by_year_desc (filter (has_code district_code) (district_data d))).

(** [x > 0] on a nullable float: comparing [None] raises. *)
Definition gt0 (x : option Q) : outcome bool :=
  match x with
  | Some v => Ret (match Qcompare 0 v with Lt => true | _ => false end)
  | None => Raise TypeError
  end.

(** [((current - previous) / previous) * 100] *)
Definition percent_change (current previous : option Q) : outcome Q :=
  match current, previous with
  | Some c, Some p =>
      match truediv (c - p) p with
      | Ret q => Ret (q * 100)%Q
      | Raise e => Raise e
      end
  | _, _ => Raise TypeError
  end.

(** The weighted sum of [_calculate_district_stats], before rounding. *)
Definition performance_score_of (latest_data : DistrictData.t) : Q :=
  let m := DistrictData.metrics latest_data in
  (or0 (employment_provided_percentage m) * 0.4 +
   or0 (timely_payment_percentage m) * 0.3 +
   py_min (or0 (average_days_per_household m) / 100 * 100) 100 * 0.3)%Q.

Definition has_stats_code (district_code : string) (r : DistrictStats.t) : bool :=
  String.eqb (DistrictStats.district_code r) district_code.

Definition with_district_stats (rows : list DistrictStats.t) (d : Db) : Db :=
  mkDb (district_data d) rows (cache_status d).

(** [setattr] of every key of the stats dict, then [last_updated = now]. *)
Definition overwrite_stats (existing : DistrictStats.t) (stats : Stats.t)
    (now : datetime) : DistrictStats.t :=
  DistrictStats.mk
    (DistrictStats.district_code existing)
    (Stats.district_name stats)
    (Stats.state_name stats)
    (Some (Stats.performance_score stats))
    (Some (Stats.employment_rank stats))
    (Some (Stats.expenditure_rank stats))
    (Some (Stats.employment_trend stats))
    (Some (Stats.expenditure_trend stats))
    (Some (Stats.state_average_comparison stats))
    (Some (Stats.national_average_comparison stats))
    (Some (Stats.total_beneficiaries stats))
    (Some (Stats.total_investment stats))
    (Some (Stats.calculation_date stats))
    (Some now).

(** The new [DistrictStats] object built from the key, the time and the
    stats dict. *)
Definition create_stats (district_code : string) (stats : Stats.t)
    (now : datetime) : DistrictStats.t :=
  DistrictStats.mk
    district_code
    (Stats.district_name stats)
    (Stats.state_name stats)
    (Some (Stats.performance_score stats))
    (Some (Stats.employment_rank stats))
    (Some (Stats.expenditure_rank stats))
    (Some (Stats.employment_trend stats))
    (Some (Stats.expenditure_trend stats))
    (Some (Stats.state_average_comparison stats))
    (Some (Stats.national_average_comparison stats))
    (Some (Stats.total_beneficiaries stats))
    (Some (Stats.total_investment stats))
    (Some (Stats.calculation_date stats))
    (Some now).

(** ** mgnrega_service.py: health status *)

Definition has_data_type (data_type : string) (r : CacheStatus.t) : bool :=
  String.eqb (CacheStatus.data_type r) data_type.

Definition with_cache_status (rows : list CacheStatus.t) (d : Db) : Db :=
  mkDb (district_data d) (district_stats d) rows.

(** [cache_status.failed_attempts += 1]: adding to [None] raises. *)
Definition incr (x : option Z) : outcome Z :=
  match x with
  | Some n => Ret (n + 1)
  | None => Raise TypeError
  end.

Section Service.

Variable env : Env.

(** [datetime.now()] *)
Definition datetime_now : M datetime :=
  fun w =>
    (Ret (clock env (ticks w)),
     mkWorld (store w) (session w) (S (ticks w)) (commits w) (api_calls w)).

(** [db.commit()]: flushes the pending changes, or raises and leaves them
    pending. *)
Definition db_commit : M unit :=
  fun w =>
    if commit_fails env (commits w)
    then (Raise SQLAlchemyError,
          mkWorld (store w) (session w) (ticks w) (S (commits w)) (api_calls w))
    else (Ret tt,
          mkWorld (session w) (session w) (ticks w) (S (commits w)) (api_calls w)).

(** [db.rollback()]: discards the pending changes. *)
Definition db_rollback : M unit :=
  fun w => (Ret tt, with_session (store w) w).

(** [db.refresh(record)] after a commit: the row read back is the object that
    was flushed, since the service assigned every column it reads. *)
Definition db_refresh (record : DistrictData.t) : M DistrictData.t :=
  ret record.

(** ** mgnrega_service.py: staleness *)

Definition cache_duration_hours : Z := 24.

Definition _is_cache_stale (last_updated : option datetime) : M bool :=
  match last_updated with
  | None => ret true
  | Some lu =>
      now <- datetime_now ;;
      let stale_threshold := now - timedelta_hours cache_duration_hours in
      ret (lu <? stale_threshold)
  end.

(** ** data_gov_client.py: the adapter call *)

Definition get_district_mgnrega_data (district_code : string) (year : Z)
  : M (option Fetched.t) :=
  fun w =>
    (Ret (option_map (_generate_sample_district_data district_code year)
            (source env (length (api_calls w)))),
     mkWorld (store w) (session w) (ticks w) (commits w)
       ((district_code, year) :: api_calls w)).

(** ** mgnrega_service.py: the read path *)

Definition _get_cached_district_data (district_code : string) (year : Z)
  : M (option DistrictData.t) :=
  d <- get_session ;;
  ret (find (same_key district_code year) (district_data d)).

Definition _save_district_data_to_cache (data : Fetched.t)
    (district_code : string) (year : Z) : M Formatted.t :=
  try_except
    (existing <- _get_cached_district_data district_code year ;;
     record <-
       match existing with
       | Some ex =>
           now <- datetime_now ;;
           let record := overwrite ex data now in
           d <- get_session ;;
           put_session
             (with_district_data
                (update_first (same_key district_code year) (fun _ => record)
                   (district_data d)) d) ;;;
           ret record
       | None =>
           now <- datetime_now ;;
           let record := create data district_code year now in
           d <- get_session ;;
           put_session (with_district_data (district_data d ++ [record]) d) ;;;
           ret record
       end ;;
     db_commit ;;;
     record <- db_refresh record ;;
     ret (_format_district_data record))
    (fun e => db_rollback ;;; raise e).

(** [year or datetime.now().year] *)
Definition current_year_of (year : option Z) : M Z :=
  match year with
  | Some y => if y =? 0 then (now <- datetime_now ;; ret (year_of now)) else ret y
  | None => now <- datetime_now ;; ret (year_of now)
  end.

Definition get_district_data (district_code : string) (year : option Z)
  : M (option Formatted.t) :=
  try_except
    (current_year <- current_year_of year ;;
     cached_data <- _get_cached_district_data district_code current_year ;;
     fresh_in_cache <-
       match cached_data with
       | Some c =>
           stale <- _is_cache_stale (DistrictData.last_updated c) ;;
           ret (negb stale)
       | None => ret false
       end ;;
     if fresh_in_cache
     then ret (option_map _format_district_data cached_data)
     else
       fresh_data <- get_district_mgnrega_data district_code current_year ;;
       match fresh_data with
       | Some data =>
           saved <- _save_district_data_to_cache data district_code current_year ;;
           ret (Some saved)
       | None =>
           match cached_data with
           | Some c => ret (Some (_format_district_data c))
           | None => ret None
           end
       end)
    (fun _ => ret None).

(** ** mgnrega_service.py: the stats path *)

Definition _calculate_district_stats (district_code : string)
  : M (option Stats.t) :=
  try_except
    (d <- get_session ;;
     let recent_data := recent_data_of district_code d in
     match recent_data with
     | [] => ret None
     | latest_data :: older =>
         let performance_score := performance_score_of latest_data in
         trends <-
           match older with
           | previous :: _ =>
               let cur := DistrictData.metrics latest_data in
               let prev := DistrictData.metrics previous in
               grew <- lift (gt0 (total_person_days prev)) ;;
               employment_trend <-
                 (if grew : bool
                  then lift (percent_change (total_person_days cur)
                               (total_person_days prev))
                  else ret 0%Q) ;;
               spent <- lift (gt0 (total_expenditure prev)) ;;
               expenditure_trend <-
                 (if spent : bool
                  then lift (percent_change (total_expenditure cur)
                               (total_expenditure prev))
                  else ret 0%Q) ;;
               ret (employment_trend, expenditure_trend)
           | [] => ret (0%Q, 0%Q)
           end ;;
         now <- datetime_now ;;
         ret (Some (Stats.mk
                      (DistrictData.district_name latest_data)
                      (DistrictData.state_name latest_data)
                      (round performance_score 2)
                      0
                      0
                      (round (fst trends) 2)
                      (round (snd trends) 2)
                      0%Q
                      0%Q
                      (or0Z (active_workers (DistrictData.metrics latest_data)))
                      (or0 (total_expenditure (DistrictData.metrics latest_data)))
                      now))
     end)
    (fun _ => ret None).

Definition _save_district_stats_to_cache (stats : Stats.t)
    (district_code : string) : M unit :=
  try_except
    (d <- get_session ;;
     match find (has_stats_code district_code) (district_stats d) with
     | Some ex =>
         now <- datetime_now ;;
         put_session
           (with_district_stats
              (update_first (has_stats_code district_code)
                 (fun _ => overwrite_stats ex stats now) (district_stats d)) d)
     | None =>
         now <- datetime_now ;;
         put_session
           (with_district_stats
              (district_stats d ++ [create_stats district_code stats now]) d)
     end ;;;
     db_commit)
    (fun _ => db_rollback).

Definition get_district_stats (district_code : string)
  : M (option StatsResponse) :=
  try_except
    (d <- get_session ;;
     let cached_stats := find (has_stats_code district_code) (district_stats d) in
     fresh_in_cache <-
       match cached_stats with
       | Some c =>
           stale <- _is_cache_stale (DistrictStats.last_updated c) ;;
           ret (negb stale)
       | None => ret false
       end ;;
     if fresh_in_cache
     then ret (option_map _format_district_stats cached_stats)
     else
       stats <- _calculate_district_stats district_code ;;
       match stats with
       | Some st =>
           _save_district_stats_to_cache st district_code ;;;
           ret (Some (ComputedStats st))
       | None => ret (option_map _format_district_stats cached_stats)
       end)
    (fun _ => ret None).

(** ** mgnrega_service.py: the health tracker *)

Definition _update_cache_status (data_type : string)
    (success_count total_count : Z) : M unit :=
  try_except
    (d <- get_session ;;
     cache_status0 <-
       match find (has_data_type data_type) (cache_status d) with
       | Some c => ret c
       | None =>
           let c := CacheStatus.new data_type in
           put_session (with_cache_status (cache_status d ++ [c]) d) ;;;
           ret c
       end ;;
     now1 <- datetime_now ;;
     let c1 :=
       CacheStatus.mk (CacheStatus.data_type cache_status0)
         (Some now1)
         (CacheStatus.last_successful_fetch cache_status0)
         (Some success_count)
         (CacheStatus.failed_attempts cache_status0)
         (CacheStatus.is_stale cache_status0)
         (CacheStatus.api_status cache_status0)
         (CacheStatus.updated_at cache_status0) in
     c2 <-
       (if success_count >? 0
        then
          now2 <- datetime_now ;;
          ret (CacheStatus.mk (CacheStatus.data_type c1)
                 (CacheStatus.last_api_fetch c1)
                 (Some now2)
                 (CacheStatus.total_records c1)
                 (Some 0)
                 (Some false)
                 (Some "active"%string)
                 (CacheStatus.updated_at c1))
        else
          failed <- lift (incr (CacheStatus.failed_attempts c1)) ;;
          if failed >=? 3
          then
            ret (CacheStatus.mk (CacheStatus.data_type c1)
                   (CacheStatus.last_api_fetch c1)
                   (CacheStatus.last_successful_fetch c1)
                   (CacheStatus.total_records c1)
                   (Some failed)
                   (Some true)
                   (Some "down"%string)
                   (CacheStatus.updated_at c1))
          else
            ret (CacheStatus.mk (CacheStatus.data_type c1)
                   (CacheStatus.last_api_fetch c1)
                   (CacheStatus.last_successful_fetch c1)
                   (CacheStatus.total_records c1)
                   (Some failed)
                   (CacheStatus.is_stale c1)
                   (CacheStatus.api_status c1)
                   (CacheStatus.updated_at c1))) ;;
     now3 <- datetime_now ;;
     let c3 :=
       CacheStatus.mk (CacheStatus.data_type c2)
         (CacheStatus.last_api_fetch c2)
         (CacheStatus.last_successful_fetch c2)
         (CacheStatus.total_records c2)
         (CacheStatus.failed_attempts c2)
         (CacheStatus.is_stale c2)
         (CacheStatus.api_status c2)
         (Some now3) in
     d' <- get_session ;;
     put_session
       (with_cache_status
          (update_first (has_data_type data_type) (fun _ => c3)
             (cache_status d')) d') ;;;
     db_commit)
    (fun _ => db_rollback).

(** ** mgnrega_service.py: bulk refresh *)

Fixpoint refresh_each (district_codes : list string) (current_year : Z)
    (success_count : Z) : M Z :=
  match district_codes with
  | [] => ret success_count
  | district_code :: rest =>
      success_count' <-
        try_except
          (fresh_data <- get_district_mgnrega_data district_code current_year ;;
           match fresh_data with
           | Some data =>
               _save_district_data_to_cache data district_code current_year ;;;
               ret (success_count + 1)
           | None => ret success_count
           end)
          (fun _ => ret success_count) ;;
      refresh_each rest current_year success_count'
  end.

Definition refresh_all_data : M unit :=
  try_except
    (d <- get_session ;;
     let district_codes :=
       nodup string_dec (map DistrictData.district_code (district_data d)) in
     now <- datetime_now ;;
     let current_year := year_of now in
     success_count <- refresh_each district_codes current_year 0 ;;
     _update_cache_status "district_data" success_count
       (Z.of_nat (length district_codes)))
    (fun e => raise e).

(** ** Requests *)

Inductive Request : Type :=
| GetDistrictData (district_code : string) (year : option Z)
| GetDistrictStats (district_code : string)
| RefreshAllData.

(** The effect of serving one request. *)
Definition serve (r : Request) : M unit :=
  match r with
  | GetDistrictData district_code year =>
      get_district_data district_code year ;;; ret tt
  | GetDistrictStats district_code =>
      get_district_stats district_code ;;; ret tt
  | RefreshAllData => refresh_all_data
  end.

(** The worlds the service can bring about, starting from an empty store. *)
Inductive reachable : World -> Prop :=
| reachable_initial : reachable initial_world
| reachable_serve : forall w r, reachable w -> reachable (snd (serve r w)).

End Service.

(** * More of the service *)

(** ** Python dicts *)

(** [d[k] = v] on an insertion-ordered dict: an existing key keeps its place. *)
Fixpoint dict_set {V : Type} (k : string) (v : V) (d : list (string * V))
  : list (string * V) :=
  match d with
  | [] => [(k, v)]
  | (k', v') :: rest =>
      if String.eqb k' k then (k, v) :: rest else (k', v') :: dict_set k v rest
  end.

(** [d[k]] *)
Fixpoint dict_lookup {V : Type} (k : string) (d : list (string * V)) : option V :=
  match d with
  | [] => None
  | (k', v) :: rest => if String.eqb k' k then Some v else dict_lookup k rest
  end.

(** ** mgnrega_service.py: the health report *)

Module StatusEntry.
Record t : Type := mk {
  last_fetch : option datetime;
  last_successful_fetch : option datetime;
  total_records : option Z;
  failed_attempts : option Z;
  is_stale : option bool;
  api_status : option string
}.
End StatusEntry.

Module StatusReport.
Record t : Type := mk {
  data_types : list (string * StatusEntry.t);
  overall_status : string;
  last_refresh : datetime;
  api_health : list (string * option string)
}.
End StatusReport.

(** The dict of [get_cache_status]: the report, or the error dict of its
    [except] branch. *)
Inductive CacheStatusResponse : Type :=
| Report (r : StatusReport.t)
| ErrorReport (e : exn).

(** Truth value of a nullable Boolean column. *)
Definition truthy (b : option bool) : bool :=
  match b with
  | Some true => true
  | _ => false
  end.

Definition is_down (s : CacheStatus.t) : bool :=
  match CacheStatus.api_status s with
  | Some a => String.eqb a "down"
  | None => false
  end.

Definition status_entry (s : CacheStatus.t) : StatusEntry.t :=
  StatusEntry.mk (CacheStatus.last_api_fetch s)
    (CacheStatus.last_successful_fetch s) (CacheStatus.total_records s)
    (CacheStatus.failed_attempts s) (CacheStatus.is_stale s)
    (CacheStatus.api_status s).

(** ** mgnrega_service.py: district comparison *)

Module ComparedDistrict.
Record t : Type := mk {
  district_code : string;
  district_name : string;
  state_name : string
}.
End ComparedDistrict.

Module ComparisonMetric.
Record t : Type := mk {
  metric_name : string;
  metric_label : string;
  values : list (string * option Q);
  unit : string;
  description : string
}.
End ComparisonMetric.

Module Extreme.
Record t : Type := mk {
  district_code : string;
  district_name : string;
  value : option Q
}.
End Extreme.

Module Summary.
Record t : Type := mk {
  best_employment_district : Extreme.t;
  worst_employment_district : Extreme.t;
  highest_expenditure_district : Extreme.t;
  total_districts_compared : Z;
  comparison_year : Z
}.
End Summary.

(** The dict of [compare_districts]; an empty summary dict is [None]. *)
Module Comparison.
Record t : Type := mk {
  districts : list ComparedDistrict.t;
  year : Z;
  metrics : list ComparisonMetric.t;
  summary : option Summary.t;
  generated_at : datetime
}.
End Comparison.

Module MetricConfig.
Record t : Type := mk {
  name : string;
  label : string;
  unit : string;
  description : string
}.
End MetricConfig.

Definition metrics_config : list MetricConfig.t :=
  [MetricConfig.mk "total_person_days" "Total Person Days" "days"
     "Total person days of employment generated";
   MetricConfig.mk "total_expenditure" "Total Expenditure" "â‚¹"
     "Total expenditure on MGNREGA works";
   MetricConfig.mk "active_workers" "Active Workers" "count"
     "Number of active workers";
   MetricConfig.mk "average_days_per_household" "Avg Days per Household" "days"
     "Average employment days per household";
   MetricConfig.mk "employment_provided_percentage" "Employment Provided" "%"
     "Percentage of employment provided"]%string.

(** [data.get(metric_name, 0)] for the keys of [metrics_config] and of the
    summary: the key is always there, its value may be [None]; an integer
    stands for itself among the numbers. *)
Definition data_get (metric_name : string) (data : Formatted.t) : option Q :=
  let m := Formatted.metrics data in
  if String.eqb metric_name "total_person_days" then total_person_days m
  else if String.eqb metric_name "total_expenditure" then total_expenditure m
  else if String.eqb metric_name "active_workers"
       then option_map inject_Z (active_workers m)
  else if String.eqb metric_name "average_days_per_household"
       then average_days_per_household m
  else if String.eqb metric_name "employment_provided_percentage"
       then employment_provided_percentage m
  else Some 0%Q.

(** [a > b] between two dict values: a [None] on either side raises. *)
Definition value_gt (a b : option Q) : outcome bool :=
  match a, b with
  | Some x, Some y => Ret (match Qcompare x y with Gt => true | _ => false end)
  | _, _ => Raise TypeError
  end.

Definition value_lt (a b : option Q) : outcome bool :=
  match a, b with
  | Some x, Some y => Ret (match Qcompare x y with Lt => true | _ => false end)
  | _, _ => Raise TypeError
  end.

(** The loop of [max(d, key=d.get)] once a first candidate is held: a later
    key replaces it only when its value is strictly greater. *)
Fixpoint max_from (best : string * option Q) (rest : list (string * option Q))
  : outcome string :=
  match rest with
  | [] => Ret (fst best)
  | item :: rest' =>
      match value_gt (snd item) (snd best) with
      | Ret true => max_from item rest'
      | Ret false => max_from best rest'
      | Raise e => Raise e
      end
  end.

Fixpoint min_from (best : string * option Q) (rest : list (string * option Q))
  : outcome string :=
  match rest with
  | [] => Ret (fst best)
  | item :: rest' =>
      match value_lt (snd item) (snd best) with
      | Ret true => min_from item rest'
      | Ret false => min_from best rest'
      | Raise e => Raise e
      end
  end.

(** [max(d, key=d.get)]; the dict is never empty where the service calls it
    (an empty one raises ValueError, folded into [TypeError] here). *)
Definition max_key (d : list (string * option Q)) : outcome string :=
  match d with
  | [] => Raise TypeError
  | first :: rest => max_from first rest
  end.

Definition min_key (d : list (string * option Q)) : outcome string :=
  match d with
  | [] => Raise TypeError
  | first :: rest => min_from first rest
  end.

(** [{code: data.get(name, 0) for code, data in district_data.items()}] *)
Definition column (metric_name : string) (district_data : list (string * Formatted.t))
  : list (string * option Q) :=
  map (fun kv => (fst kv, data_get metric_name (snd kv))) district_data.

(** One entry of the summary: [district_data[code]["district_name"]] and
    [values[code]]; a key that is missing raises (KeyError, folded into
    [TypeError]). *)
Definition extreme_of (code : string) (district_data : list (string * Formatted.t))
    (values : list (string * option Q)) : outcome Extreme.t :=
  match dict_lookup code district_data, dict_lookup code values with
  | Some data, Some v => Ret (Extreme.mk code (Formatted.district_name data) v)
  | _, _ => Raise TypeError
  end.

(** The body of the [try] of [_generate_comparison_summary], for a dict that
    is not empty. *)
Definition summary_of (district_data : list (string * Formatted.t))
  : outcome Summary.t :=
  let employment_data := column "total_person_days" district_data in
  let expenditure_data := column "total_expenditure" district_data in
  match max_key employment_data with
  | Raise e => Raise e
  | Ret best_employment =>
  match min_key employment_data with
  | Raise e => Raise e
  | Ret worst_employment =>
  match max_key expenditure_data with
  | Raise e => Raise e
  | Ret best_expenditure =>
  match min_key expenditure_data with
  | Raise e => Raise e
  | Ret worst_expenditure =>
  match extreme_of best_employment district_data employment_data with
  | Raise e => Raise e
  | Ret best =>
  match extreme_of worst_employment district_data employment_data with
  | Raise e => Raise e
  | Ret worst =>
  match extreme_of best_expenditure district_data expenditure_data with
  | Raise e => Raise e
  | Ret highest =>
  match district_data with
  | [] => Raise TypeError
  | (_, first) :: _ =>
      Ret (Summary.mk best worst highest
             (Z.of_nat (length district_data)) (Formatted.year first))
  end end end end end end end end.

(** [_generate_comparison_summary]: any exception gives the empty dict. *)
Definition _generate_comparison_summary
    (district_data : list (string * Formatted.t)) : option Summary.t :=
  match district_data with
  | [] => None
  | _ :: _ =>
      match summary_of district_data with
      | Ret s => Some s
      | Raise _ => None
      end
  end.

(** ** data_gov_client.py: HTTP requests with retries *)

(** What one [requests.get] followed by [raise_for_status] and [json] does. *)
Inductive Attempt (A : Type) : Type :=
| Answered (data : A)
| RequestException
| OtherException.
Arguments Answered {A} data.
Arguments RequestException {A}.
Arguments OtherException {A}.

(** The state of the retry loop: requests sent and delays slept, latest
    first. *)
Record Wire : Type := mkWire {
  requests_sent : nat;
  slept : list Z
}.

(** The [for attempt in range(retry_attempts)] loop of [_make_api_request],
    entered at [attempt] with [remaining] iterations to go; [http k] is the
    outcome of the k-th request. *)
Fixpoint attempts_from {A : Type} (http : nat -> Attempt A)
    (retry_attempts : nat) (retry_delay : Z)
    (attempt remaining : nat) (wire : Wire) : option A * Wire :=
  match remaining with
  | O => (None, wire)
  | S remaining' =>
      let wire1 := mkWire (S (requests_sent wire)) (slept wire) in
      match http (requests_sent wire) with
      | Answered data => (Some data, wire1)
      | RequestException =>
          if (attempt <? retry_attempts - 1)%nat
          then attempts_from http retry_attempts retry_delay
                 (S attempt) remaining'
                 (mkWire (requests_sent wire1)
                    (retry_delay * (Z.of_nat attempt + 1) :: slept wire1))
          else (None, wire1)
      | OtherException => (None, wire1)
      end
  end.

Definition _make_api_request {A : Type} (http : nat -> Attempt A)
    (retry_attempts : nat) (retry_delay : Z) (wire : Wire) : option A * Wire :=
  attempts_from http retry_attempts retry_delay 0 retry_attempts wire.

(** [self.retry_attempts] and [self.retry_delay] of [DataGovClient]. *)
Definition retry_attempts : nat := 3.
Definition retry_delay : Z := 2.

Section Reports.

Variable env : Env.

Definition get_cache_status : M CacheStatusResponse :=
  try_except
    (d <- get_session ;;
     let cache_statuses := cache_status d in
     now <- datetime_now env ;;
     let data_types :=
       fold_left
         (fun acc s => dict_set (CacheStatus.data_type s) (status_entry s) acc)
         cache_statuses [] in
     let api_health :=
       fold_left
         (fun acc s =>
            dict_set (CacheStatus.data_type s) (CacheStatus.api_status s) acc)
         cache_statuses [] in
     let overall_status := "healthy"%string in
     let overall_status :=
       if existsb (fun s => truthy (CacheStatus.is_stale s)) cache_statuses
       then "degraded"%string else overall_status in
     let overall_status :=
       if existsb is_down cache_statuses
       then "critical"%string else overall_status in
     ret (Report (StatusReport.mk data_types overall_status now api_health)))
    (fun e => ret (ErrorReport e)).

(** The [for district_code in district_codes] loop of [compare_districts]:
    the dict of the data read and the list of districts, in reading order. *)
Fixpoint read_each (district_codes : list string) (current_year : Z)
    (district_data : list (string * Formatted.t))
    (districts : list ComparedDistrict.t)
  : M (list (string * Formatted.t) * list ComparedDistrict.t) :=
  match district_codes with
  | [] => ret (district_data, districts)
  | district_code :: rest =>
      data <- get_district_data env district_code (Some current_year) ;;
      match data with
      | Some f =>
          read_each rest current_year
            (dict_set district_code f district_data)
            (districts ++
             [ComparedDistrict.mk district_code (Formatted.district_name f)
                (Formatted.state_name f)])
      | None => read_each rest current_year district_data districts
      end
  end.

Definition compare_districts (district_codes : list string) (year : option Z)
  : M Comparison.t :=
  try_except
    (current_year <- current_year_of env year ;;
     generated_at <- datetime_now env ;;
     read <- read_each district_codes current_year [] [] ;;
     let district_data := fst read in
     let districts := snd read in
     match district_data with
     | [] => ret (Comparison.mk districts current_year [] None generated_at)
     | _ :: _ =>
         let metrics :=
           map (fun c =>
                  ComparisonMetric.mk (MetricConfig.name c) (MetricConfig.label c)
                    (column (MetricConfig.name c) district_data)
                    (MetricConfig.unit c) (MetricConfig.description c))
               metrics_config in
         ret (Comparison.mk districts current_year metrics
                (_generate_comparison_summary district_data) generated_at)
     end)
    (fun e => raise e).

End Reports.

(** * Vocabulary of the statements *)

(** The age up to which a cached row is served without a fetch. *)
Definition max_age : timedelta := timedelta_hours cache_duration_hours.

(** One more reading of the clock. *)
Definition tick (w : World) : World :=
  mkWorld (store w) (session w) (S (ticks w)) (commits w) (api_calls w).

(** The record object [_save_district_data_to_cache] ends up holding. *)
Definition saved_record (data : Fetched.t) (district_code : string) (year : Z)
    (now : datetime) (rows : list DistrictData.t) : DistrictData.t :=
  match find (same_key district_code year) rows with
  | Some ex => overwrite ex data now
  | None => create data district_code year now
  end.

(** The table after the upsert. *)
Definition upsert (data : Fetched.t) (district_code : string) (year : Z)
    (now : datetime) (rows : list DistrictData.t) : list DistrictData.t :=
  match find (same_key district_code year) rows with
  | Some ex =>
      update_first (same_key district_code year)
        (fun _ => overwrite ex data now) rows
  | None => rows ++ [create data district_code year now]
  end.

Definition key_of (r : DistrictData.t) : string * Z :=
  (DistrictData.district_code r, DistrictData.year r).

(** At most one stored Record per (district_code, year). *)
Definition unique_keys (rows : list DistrictData.t) : Prop :=
  NoDup (map key_of rows).


(** A payload that answers the request it was fetched for. *)
Definition keyed (data : Fetched.t) (district_code : string) (year : Z) : Prop :=
  Fetched.district_code data = district_code /\ Fetched.year data = year.

(** The year a read is for: [year or datetime.now().year]. *)
Definition requested_year (env : Env) (year : option Z) (w : World) : Z :=
  match year with
  | Some y => if y =? 0 then year_of (clock env (ticks w)) else y
  | None => year_of (clock env (ticks w))
  end.

(** The world once the year is settled: the clock is read only for a missing
    or zero year. *)
Definition after_year (year : option Z) (w : World) : World :=
  match year with
  | Some y => if y =? 0 then tick w else w
  | None => tick w
  end.

(** The Record a read finds in the cache. *)
Definition cached_record (env : Env) (district_code : string)
    (year : option Z) (w : World) : option DistrictData.t :=
  find (same_key district_code (requested_year env year w))
    (district_data (store w)).


(** What a read does once it has decided to go to the source, in a world
    whose session is clean. *)
Definition read_through (env : Env) (district_code : string) (cy : Z)
    (cached : option DistrictData.t) (w : World)
  : outcome (option Formatted.t) * World :=
  let log := (district_code, cy) :: api_calls w in
  match source env (length (api_calls w)) with
  | Some draws =>
      let data := _generate_sample_district_data district_code cy draws in
      let now := clock env (ticks w) in
      let rows := district_data (store w) in
      if commit_fails env (commits w)
      then (Ret None,
            mkWorld (store w) (store w) (S (ticks w)) (S (commits w)) log)
      else
        let d := with_district_data (upsert data district_code cy now rows)
                   (store w) in
        (Ret (Some (_format_district_data
                      (saved_record data district_code cy now rows))),
         mkWorld d d (S (ticks w)) (S (commits w)) log)
  | None =>
      (Ret (option_map _format_district_data cached),
       mkWorld (store w) (session w) (ticks w) (commits w) log)
  end.

(** The world in which a read invokes the adapter, when it does: the cache
    holds no Record for the key, or a stale one. *)
Definition goes_to_source (env : Env) (district_code : string)
    (year : option Z) (w : World) : option World :=
  let w1 := after_year year w in
  match cached_record env district_code year w with
  | Some c =>
      match DistrictData.last_updated c with
      | Some lu =>
          if lu <? clock env (ticks w1) - max_age then Some (tick w1) else None
      | None => Some w1
      end
  | None => Some w1
  end.

(** The two year-over-year trends, before rounding, as the body of
    [_calculate_district_stats] computes them from the rows after the most
    recent one. *)
Definition trends_of (latest_data : DistrictData.t)
    (older : list DistrictData.t) : outcome (Q * Q) :=
  match older with
  | previous :: _ =>
      let cur := DistrictData.metrics latest_data in
      let prev := DistrictData.metrics previous in
      match gt0 (total_person_days prev) with
      | Ret grew =>
          match (if grew
                 then percent_change (total_person_days cur) (total_person_days prev)
                 else Ret 0%Q) with
          | Ret employment_trend =>
              match gt0 (total_expenditure prev) with
              | Ret spent =>
                  match (if spent
                         then percent_change (total_expenditure cur)
                                (total_expenditure prev)
                         else Ret 0%Q) with
                  | Ret expenditure_trend =>
                      Ret (employment_trend, expenditure_trend)
                  | Raise e => Raise e
                  end
              | Raise e => Raise e
              end
          | Raise e => Raise e
          end
      | Raise e => Raise e
      end
  | [] => Ret (0%Q, 0%Q)
  end.

(** The dict [_calculate_district_stats] returns for given trends. *)
Definition stats_dict (latest_data : DistrictData.t) (trends : Q * Q)
    (now : datetime) : Stats.t :=
  Stats.mk
    (DistrictData.district_name latest_data)
    (DistrictData.state_name latest_data)
    (round (performance_score_of latest_data) 2)
    0 0
    (round (fst trends) 2)
    (round (snd trends) 2)
    0%Q 0%Q
    (or0Z (active_workers (DistrictData.metrics latest_data)))
    (or0 (total_expenditure (DistrictData.metrics latest_data)))
    now.

(** The stats table after the upsert of [_save_district_stats_to_cache]. *)
Definition upsert_stats (stats : Stats.t) (district_code : string)
    (now : datetime) (rows : list DistrictStats.t) : list DistrictStats.t :=
  match find (has_stats_code district_code) rows with
  | Some ex =>
      update_first (has_stats_code district_code)
        (fun _ => overwrite_stats ex stats now) rows
  | None => rows ++ [create_stats district_code stats now]
  end.

(** The world in which a stats read recomputes, when it does: no stats row is
    cached for the district, or a stale one. *)
Definition recomputes_in (env : Env) (district_code : string) (w : World)
  : option World :=
  match find (has_stats_code district_code) (district_stats (store w)) with
  | Some c =>
      match DistrictStats.last_updated c with
      | Some lu =>
          if lu <? clock env (ticks w) - max_age then Some (tick w) else None
      | None => Some w
      end
  | None => Some w
  end.

(** 2026-11-03T12:00:00 *)
Definition noon : datetime := (739923 - 1) * 86400000000 + 12 * 3600000000.

Definition example_draws : Draws :=
  mkDraws 1000000 0.7 0.2 0.5 2 0.5 60 0.2 200 0.7 1 0.7 85.555.

(** An adapter that answers its first call and fails afterwards, a clock that
    advances by two days per reading, commits that succeed. *)
Definition flaky_env : Env :=
  mkEnv (fun k => noon + Z.of_nat k * timedelta_hours 48)
        (fun _ => false)
        (fun k => match k with O => Some example_draws | S _ => None end).

(** An adapter that always answers, and commits that always fail. *)
Definition readonly_env : Env :=
  mkEnv (fun _ => noon) (fun _ => true) (fun _ => Some example_draws).

(** The world after one successful read of AP001 for 2024. *)
Definition one_record_world : World :=
  snd (serve flaky_env (GetDistrictData "AP001" (Some 2024)) initial_world).

(** The status row after an update that saw at least one success. *)
Definition after_success (cs : CacheStatus.t) (success_count : Z)
    (t0 t1 t2 : datetime) : CacheStatus.t :=
  CacheStatus.mk (CacheStatus.data_type cs) (Some t0) (Some t1)
    (Some success_count) (Some 0) (Some false) (Some "active"%string) (Some t2).

(** The status row after an update that saw no success, for a row whose
    failure counter was [n]. *)
Definition after_failure (cs : CacheStatus.t) (success_count n : Z)
    (t0 t2 : datetime) : CacheStatus.t :=
  CacheStatus.mk (CacheStatus.data_type cs) (Some t0)
    (CacheStatus.last_successful_fetch cs)
    (Some success_count) (Some (n + 1))
    (if n + 1 >=? 3 then Some true else CacheStatus.is_stale cs)
    (if n + 1 >=? 3 then Some "down"%string else CacheStatus.api_status cs)
    (Some t2).

(** Commit of a new status table after [k] readings of the clock, or rollback. *)
Definition finish (env : Env) (w : World) (k : nat)
    (rows : list CacheStatus.t) : outcome unit * World :=
  if commit_fails env (commits w)
  then (Ret tt,
        mkWorld (store w) (store w) (k + ticks w) (S (commits w)) (api_calls w))
  else
    let d := with_cache_status rows (store w) in
    (Ret tt, mkWorld d d (k + ticks w) (S (commits w)) (api_calls w)).




(** Whether the values the trends are computed from are there: with two or
    more rows, both totals of the two most recent ones. *)
Definition trend_inputs_present (recent : list DistrictData.t) : bool :=
  match recent with
  | cur :: prev :: _ =>
      match total_person_days (DistrictData.metrics cur),
            total_person_days (DistrictData.metrics prev),
            total_expenditure (DistrictData.metrics cur),
            total_expenditure (DistrictData.metrics prev) with
      | Some _, Some _, Some _, Some _ => true
      | _, _, _, _ => false
      end
  | _ => true
  end.

(** A Record for the given year with the given totals. *)
Definition example_record (year : Z) (person_days expenditure : Q)
  : DistrictData.t :=
  DistrictData.mk "AP001" "Anantapur" "Andhra Pradesh" year
    (mkMetrics (Some 140000) (Some 70000) (Some 140000) (Some 70000)
       (Some person_days) (Some 60%Q) (Some 14000)
       (Some expenditure) (Some 30%Q) (Some 20%Q) (Some 200%Q)
       (Some 70000) (Some 49000) (Some 21000)
       (Some 60%Q) None)
    (Some "data.gov.in"%string) (Some noon) (Some true).


(** Both totals the trends are computed from are stored in every row. *)
Definition totals_present (rows : list DistrictData.t) : Prop :=
  Forall (fun r =>
            total_person_days (DistrictData.metrics r) <> None /\
            total_expenditure (DistrictData.metrics r) <> None) rows.

(** Between requests the session holds nothing uncommitted and the Record
    table has the property [P]. *)
Definition stable (P : list DistrictData.t -> Prop) (w : World) : Prop :=
  session w = store w /\ P (district_data (store w)).

(** ** Scenarios and predicates of the further properties *)

(** The world after the stats of AP001 have been computed and stored. *)
Definition stats_world : World :=
  snd (get_district_stats flaky_env "AP001" one_record_world).

(** A clock standing at [t], commits that succeed, a source that fails. *)
Definition steady_env (t : datetime) : Env :=
  mkEnv (fun _ => t) (fun _ => false) (fun _ => None).

(** A Record of AP001 for the given year without a person-days total. *)
Definition partial_record (year : Z) : DistrictData.t :=
  DistrictData.mk "AP001" "Anantapur" "Andhra Pradesh" year
    (mkMetrics (Some 140000) (Some 70000) (Some 140000) (Some 70000)
       None (Some 60%Q) (Some 14000)
       (Some 40%Q) (Some 30%Q) (Some 10%Q) (Some 200%Q)
       (Some 70000) (Some 49000) (Some 21000)
       (Some 60%Q) (Some 90%Q))
    (Some "data.gov.in"%string) (Some noon) (Some true).

(** A store whose older Record of AP001 lacks the person-days total. *)
Definition partial_world : World :=
  let d := mkDb [partial_record 2023; example_record 2024 1000 50] [] [] in
  mkWorld d d 0 0 [].

(** The row the update works on: the one found, or a new one. *)
Definition status_row (data_type : string) (rows : list CacheStatus.t)
  : CacheStatus.t :=
  match find (has_data_type data_type) rows with
  | Some c => c
  | None => CacheStatus.new data_type
  end.

(** The world after a first refresh in which five districts succeeded. *)
Definition active_world : World :=
  snd (_update_cache_status flaky_env "district_data" 5 7 initial_world).

(** The overall status [get_cache_status] derives from the rows. *)
Definition overall_of (rows : list CacheStatus.t) : string :=
  if existsb is_down rows then "critical"%string
  else if existsb (fun s => truthy (CacheStatus.is_stale s)) rows
       then "degraded"%string
       else "healthy"%string.


(** A source that always answers, commits that always succeed. *)
Definition reliable_env : Env :=
  mkEnv (clock flaky_env) (fun _ => false) (fun _ => Some example_draws).

(** The delays slept after [k] failed attempts starting at [attempt], latest
    first: the base delay times the attempt number. *)
Definition backoff (retry_delay : Z) (attempt k : nat) : list Z :=
  rev (map (fun i => retry_delay * (Z.of_nat i + 1)) (seq attempt k)).

(** The dict of the data read has one entry per district listed, under
    distinct keys. *)
Definition dict_matches (dd : list (string * Formatted.t))
    (ds : list ComparedDistrict.t) : Prop :=
  NoDup (map fst dd) /\
  forall c, In c (map fst dd) <-> In c (map ComparedDistrict.district_code ds).

(** The dict of two districts read for 2024, with 1000 and 300 person-days. *)
Definition compared_data : list (string * Formatted.t) :=
  [("AP001"%string, _format_district_data (example_record 2024 1000 50));
   ("AP002"%string, _format_district_data (example_record 2024 300 40))].


(** * Properties *)


(** ** Staleness *)

Lemma is_cache_stale_missing env w :
  _is_cache_stale env None w = (Ret true, w).
Proof. reflexivity. Qed.

Lemma is_cache_stale_present env lu w :
  _is_cache_stale env (Some lu) w =
  (Ret (lu <? clock env (ticks w) - max_age),
   mkWorld (store w) (session w) (S (ticks w)) (commits w) (api_calls w)).
Proof. reflexivity. Qed.

(** The session, the store and the adapter log are not touched by the
    staleness test. *)
Lemma is_cache_stale_frame env lu w :
  let w' := snd (_is_cache_stale env lu w) in
  store w' = store w /\ session w' = session w /\
  commits w' = commits w /\ api_calls w' = api_calls w.
Proof. destruct lu; cbn; auto. Qed.

(** C3, as stated, fails: a record whose age is exactly [max_age] is not
    classified stale. *)
Lemma is_cache_stale_age_equal_max_age_not_stale :
  ~ (forall (env : Env) (lu : datetime) (w : World),
        fst (_is_cache_stale env (Some lu) w) = Ret true <->
        clock env (ticks w) - lu >= max_age).
Proof.
  intros H.
  specialize (H (mkEnv (fun _ => max_age) (fun _ => false) (fun _ => None))
                0 initial_world).
  cbn in H. destruct H as [_ H].
  assert (E : @Ret bool false = Ret true) by (apply H; vm_compute; discriminate).
  discriminate E.
Qed.

(** C3 (amended): the staleness test always returns; it answers true for a
    missing timestamp, and for a present one exactly when
    [now - last_updated > max_age], so an age equal to [max_age] is fresh. *)
Theorem is_cache_stale_spec (env : Env) (lu : datetime) (w : World) :
  fst (_is_cache_stale env None w) = Ret true /\
  (exists b, fst (_is_cache_stale env (Some lu) w) = Ret b /\
             (b = true <-> clock env (ticks w) - lu > max_age)) /\
  fst (_is_cache_stale env (Some (clock env (ticks w) - max_age)) w) = Ret false.
Proof.
  split; [reflexivity|]. split.
  - exists (lu <? clock env (ticks w) - max_age). split; [reflexivity|].
    rewrite Z.ltb_lt. lia.
  - rewrite is_cache_stale_present. cbn [fst]. f_equal.
    apply Z.ltb_irrefl.
Qed.

(** Runs the monad's plumbing, leaving the service's own tests in place. *)
Ltac mrun :=
  cbv beta iota zeta delta
    [bind ret raise try_except lift get_session put_session datetime_now
     db_commit db_rollback db_refresh with_session];
  cbn [session store ticks commits api_calls fst snd].

(** ** The write-back upsert *)

Lemma save_spec env data district_code year w :
  session w = store w ->
  _save_district_data_to_cache env data district_code year w =
  let now := clock env (ticks w) in
  let rows := district_data (store w) in
  if commit_fails env (commits w)
  then (Raise SQLAlchemyError,
        mkWorld (store w) (store w) (S (ticks w)) (S (commits w)) (api_calls w))
  else
    let d := with_district_data (upsert data district_code year now rows)
               (store w) in
    (Ret (_format_district_data
            (saved_record data district_code year now rows)),
     mkWorld d d (S (ticks w)) (S (commits w)) (api_calls w)).
Proof.
  destruct w as [st se t c a]. cbn [session store]. intros ->.
  unfold _save_district_data_to_cache, _get_cached_district_data,
    upsert, saved_record.
  mrun.
  destruct (find (same_key district_code year) (district_data st)) as [ex|];
    mrun; destruct (commit_fails env c); reflexivity.
Qed.

(** ** Keys *)

Lemma same_key_true district_code year r :
  same_key district_code year r = true <-> key_of r = (district_code, year).
Proof.
  unfold same_key, key_of. rewrite andb_true_iff, String.eqb_eq, Z.eqb_eq.
  split; [intros [-> ->]; reflexivity | intros [= -> ->]; auto].
Qed.

Lemma find_none_not_in district_code year rows :
  find (same_key district_code year) rows = None ->
  ~ In (district_code, year) (map key_of rows).
Proof.
  intros H Hin. apply in_map_iff in Hin. destruct Hin as [r [Hk Hr]].
  apply (find_none _ _ H) in Hr. apply same_key_true in Hk. congruence.
Qed.

Lemma update_first_keys p (r' : DistrictData.t) rows :
  (forall r, In r rows -> p r = true -> key_of r = key_of r') ->
  map key_of (update_first p (fun _ => r') rows) = map key_of rows.
Proof.
  induction rows as [|x rows IH]; intros H; [reflexivity|].
  cbn [update_first]. destruct (p x) eqn:E.
  - cbn [map]. f_equal. symmetry. apply H; [left; reflexivity | exact E].
  - cbn [map]. f_equal. apply IH. intros r Hr. apply H. right. exact Hr.
Qed.

Lemma update_first_Forall {A} (P : A -> Prop) p (f : A -> A) rows :
  Forall P rows -> (forall r, In r rows -> p r = true -> P (f r)) ->
  Forall P (update_first p f rows).
Proof.
  induction rows as [|x rows IH]; intros HF H; [constructor|].
  inversion HF as [|? ? Hx Hrest]; subst. cbn [update_first].
  destruct (p x) eqn:E.
  - constructor; [apply H; [left; reflexivity | exact E] | exact Hrest].
  - constructor; [exact Hx | apply IH; [exact Hrest|]].
    intros r Hr. apply H. right. exact Hr.
Qed.


Lemma sample_keyed district_code year draws :
  keyed (_generate_sample_district_data district_code year draws)
    district_code year.
Proof. split; reflexivity. Qed.


Lemma NoDup_snoc {A} (a : A) (l : list A) :
  NoDup l -> ~ In a l -> NoDup (l ++ [a]).
Proof.
  induction l as [|x l IH]; intros Hn Hin.
  - constructor; [intros []|constructor].
  - inversion Hn as [|? ? Hx Hl]; subst. cbn [app]. constructor.
    + rewrite in_app_iff. intros [H|[H|[]]]; [exact (Hx H)|].
      apply Hin. left. symmetry. exact H.
    + apply IH; [exact Hl|]. intros H. apply Hin. right. exact H.
Qed.

Lemma upsert_keys_existing data district_code year now rows ex :
  keyed data district_code year ->
  find (same_key district_code year) rows = Some ex ->
  map key_of (upsert data district_code year now rows) = map key_of rows.
Proof.
  intros [Hc Hy] Hf. unfold upsert. rewrite Hf.
  apply update_first_keys. intros r _ Hr.
  apply same_key_true in Hr. rewrite Hr. unfold key_of, overwrite.
  cbn. congruence.
Qed.

Lemma upsert_unique data district_code year now rows :
  keyed data district_code year ->
  unique_keys rows ->
  unique_keys (upsert data district_code year now rows).
Proof.
  intros Hk Hu. unfold unique_keys.
  destruct (find (same_key district_code year) rows) as [ex|] eqn:Hf.
  - rewrite (upsert_keys_existing _ _ _ _ _ _ Hk Hf). exact Hu.
  - unfold upsert. rewrite Hf, map_app. cbn [map].
    apply NoDup_snoc; [exact Hu|]. apply (find_none_not_in _ _ _ Hf).
Qed.


(** ** The read path *)

Lemma current_year_of_spec env year w :
  current_year_of env year w = (Ret (requested_year env year w), after_year year w).
Proof.
  unfold current_year_of, requested_year, after_year.
  destruct year as [y|]; [destruct (y =? 0)|]; reflexivity.
Qed.

Lemma after_year_frame year w :
  store (after_year year w) = store w /\
  session (after_year year w) = session w /\
  commits (after_year year w) = commits w /\
  api_calls (after_year year w) = api_calls w.
Proof.
  unfold after_year. destruct year as [y|]; [destruct (y =? 0)|]; cbn; auto.
Qed.

Lemma get_district_data_spec env district_code year w :
  session w = store w ->
  get_district_data env district_code year w =
  let cy := requested_year env year w in
  let w1 := after_year year w in
  match cached_record env district_code year w with
  | Some c =>
      match DistrictData.last_updated c with
      | Some lu =>
          if lu <? clock env (ticks w1) - max_age
          then read_through env district_code cy (Some c) (tick w1)
          else (Ret (Some (_format_district_data c)), tick w1)
      | None => read_through env district_code cy (Some c) w1
      end
  | None => read_through env district_code cy None w1
  end.
Proof.
  intros Hs.
  destruct (after_year_frame year w) as [F1 [F2 [F3 F4]]].
  assert (Hs1 : session (after_year year w) = store (after_year year w))
    by congruence.
  unfold get_district_data, _get_cached_district_data, cached_record.
  mrun. rewrite current_year_of_spec. rewrite F2, Hs.
  set (cy := requested_year env year w).
  set (w1 := after_year year w) in *.
  assert (Hs2 : session (tick w1) = store (tick w1)) by exact Hs1.
  destruct (find (same_key district_code cy) (district_data (store w))) as [c|];
    [destruct (DistrictData.last_updated c) as [lu|];
     [rewrite is_cache_stale_present; fold (tick w1);
      destruct (lu <? clock env (ticks w1) - max_age)|
      rewrite is_cache_stale_missing]|];
    cbn [negb option_map]; try reflexivity;
    unfold get_district_mgnrega_data, read_through;
    match goal with
    | |- context [source env ?k] => destruct (source env k) as [draws|]
    end;
    cbn [option_map]; try reflexivity;
    rewrite save_spec by assumption;
    cbn [store session ticks commits api_calls tick];
    match goal with
    | |- context [commit_fails env ?k] => destruct (commit_fails env k)
    end; reflexivity.
Qed.


Lemma goes_to_source_frame env district_code year w w2 :
  goes_to_source env district_code year w = Some w2 ->
  store w2 = store w /\ session w2 = session w /\
  commits w2 = commits w /\ api_calls w2 = api_calls w.
Proof.
  unfold goes_to_source. intros H.
  destruct (after_year_frame year w) as [F1 [F2 [F3 F4]]].
  destruct (cached_record env district_code year w) as [c|];
    [destruct (DistrictData.last_updated c) as [lu|];
     [destruct (lu <? _); [|discriminate]|]|];
    injection H as <-; cbn; auto.
Qed.

Lemma get_district_data_cases env district_code year w :
  session w = store w ->
  get_district_data env district_code year w =
  match goes_to_source env district_code year w with
  | Some w2 =>
      read_through env district_code (requested_year env year w)
        (cached_record env district_code year w) w2
  | None =>
      (Ret (option_map _format_district_data
              (cached_record env district_code year w)),
       tick (after_year year w))
  end.
Proof.
  intros Hs. rewrite (get_district_data_spec _ _ _ _ Hs). cbv zeta.
  unfold goes_to_source.
  destruct (cached_record env district_code year w) as [c|];
    [destruct (DistrictData.last_updated c) as [lu|];
     [destruct (lu <? _)|]|]; reflexivity.
Qed.

(** ** The stats path *)

Lemma calculate_spec env district_code w :
  _calculate_district_stats env district_code w =
  match recent_data_of district_code (session w) with
  | [] => (Ret None, w)
  | latest_data :: older =>
      match trends_of latest_data older with
      | Ret trends =>
          (Ret (Some (stats_dict latest_data trends (clock env (ticks w)))),
           tick w)
      | Raise _ => (Ret None, w)
      end
  end.
Proof.
  unfold _calculate_district_stats. mrun.
  destruct (recent_data_of district_code (session w)) as [|latest older];
    [reflexivity|].
  unfold trends_of.
  destruct older as [|previous rest]; [reflexivity|].
  destruct (gt0 (total_person_days (DistrictData.metrics previous)))
    as [[|]|e1]; try reflexivity;
  try (destruct (percent_change
                   (total_person_days (DistrictData.metrics latest))
                   (total_person_days (DistrictData.metrics previous)))
         as [et|e2]; [|reflexivity]);
  destruct (gt0 (total_expenditure (DistrictData.metrics previous)))
    as [[|]|e3]; try reflexivity;
  destruct (percent_change
              (total_expenditure (DistrictData.metrics latest))
              (total_expenditure (DistrictData.metrics previous)))
    as [xt|e4]; reflexivity.
Qed.

(** Recomputing the stats reads the session and the clock, nothing else. *)
Lemma calculate_frame env district_code w :
  let w' := snd (_calculate_district_stats env district_code w) in
  store w' = store w /\ session w' = session w /\
  commits w' = commits w /\ api_calls w' = api_calls w.
Proof.
  rewrite calculate_spec.
  destruct (recent_data_of district_code (session w)) as [|latest older];
    [cbn; auto|].
  destruct (trends_of latest older); cbn; auto.
Qed.

Lemma calculate_returns env district_code w :
  exists o, fst (_calculate_district_stats env district_code w) = Ret o.
Proof.
  rewrite calculate_spec.
  destruct (recent_data_of district_code (session w)) as [|latest older];
    [eexists; reflexivity|].
  destruct (trends_of latest older); eexists; reflexivity.
Qed.

Lemma save_stats_spec env stats district_code w :
  session w = store w ->
  _save_district_stats_to_cache env stats district_code w =
  if commit_fails env (commits w)
  then (Ret tt,
        mkWorld (store w) (store w) (S (ticks w)) (S (commits w)) (api_calls w))
  else
    let d := with_district_stats
               (upsert_stats stats district_code (clock env (ticks w))
                  (district_stats (store w))) (store w) in
    (Ret tt, mkWorld d d (S (ticks w)) (S (commits w)) (api_calls w)).
Proof.
  destruct w as [st se t c a]. cbn [session store]. intros ->.
  unfold _save_district_stats_to_cache, upsert_stats. mrun.
  destruct (find (has_stats_code district_code) (district_stats st)) as [ex|];
    mrun; destruct (commit_fails env c); reflexivity.
Qed.

Lemma recomputes_in_frame env district_code w w1 :
  recomputes_in env district_code w = Some w1 ->
  store w1 = store w /\ session w1 = session w /\
  commits w1 = commits w /\ api_calls w1 = api_calls w.
Proof.
  unfold recomputes_in. intros H.
  destruct (find _ _) as [c|];
    [destruct (DistrictStats.last_updated c) as [lu|];
     [destruct (lu <? _); [|discriminate]|]|];
    injection H as <-; cbn; auto.
Qed.

Lemma get_district_stats_cases env district_code w :
  session w = store w ->
  get_district_stats env district_code w =
  let cached := find (has_stats_code district_code) (district_stats (store w)) in
  match recomputes_in env district_code w with
  | Some w1 =>
      match _calculate_district_stats env district_code w1 with
      | (Ret (Some st), w2) =>
          (Ret (Some (ComputedStats st)),
           snd (_save_district_stats_to_cache env st district_code w2))
      | (_, w2) => (Ret (option_map _format_district_stats cached), w2)
      end
  | None => (Ret (option_map _format_district_stats cached), tick w)
  end.
Proof.
  intros Hs. unfold get_district_stats, recomputes_in. mrun. rewrite Hs.
  assert (Hcalc : forall w1 cached, session w1 = store w1 ->
    (let (o, w') :=
       let (o, w') := _calculate_district_stats env district_code w1 in
       match o with
       | Ret a =>
           match a with
           | Some st =>
               fun w0 : World =>
               let (o0, w'0) :=
                 _save_district_stats_to_cache env st district_code w0 in
               match o0 with
               | Ret _ => (Ret (Some (ComputedStats st)), w'0)
               | Raise e => (Raise e, w'0)
               end
           | None =>
               fun w0 : World =>
               (Ret (option_map _format_district_stats cached), w0)
           end w'
       | Raise e => (Raise e, w')
       end in
     match o with
     | Ret a => (Ret a, w')
     | Raise _ => (Ret None, w')
     end) =
    match _calculate_district_stats env district_code w1 with
    | (Ret (Some st), w2) =>
        (Ret (Some (ComputedStats st)),
         snd (_save_district_stats_to_cache env st district_code w2))
    | (_, w2) => (Ret (option_map _format_district_stats cached), w2)
    end).
  { intros w1 cached Hw1.
    destruct (calculate_frame env district_code w1) as [F1 [F2 _]].
    destruct (calculate_returns env district_code w1) as [o Ho].
    destruct (_calculate_district_stats env district_code w1) as [o' w2].
    cbn [fst snd] in *. subst o'. destruct o as [st|]; [|reflexivity].
    rewrite save_stats_spec by congruence.
    destruct (commit_fails env (commits w2)); reflexivity. }
  destruct (find (has_stats_code district_code) (district_stats (store w)))
    as [c|].
  - destruct (DistrictStats.last_updated c) as [lu|].
    + rewrite is_cache_stale_present. fold (tick w).
      destruct (lu <? clock env (ticks w) - max_age); cbn [negb].
      * apply Hcalc. exact Hs.
      * reflexivity.
    + rewrite is_cache_stale_missing. cbn [negb]. apply Hcalc. exact Hs.
  - apply Hcalc. exact Hs.
Qed.

(** ** The health tracker *)

(** The health update leaves the Record table alone and ends with a clean
    session, whether it commits or rolls back. *)
Lemma update_cache_status_frame env data_type success_count total_count w :
  session w = store w ->
  let w' := snd (_update_cache_status env data_type success_count total_count w) in
  session w' = store w' /\
  district_data (store w') = district_data (store w) /\
  district_stats (store w') = district_stats (store w) /\
  api_calls w' = api_calls w.
Proof.
  destruct w as [st se t c a]. cbn [session store]. intros ->.
  unfold _update_cache_status. mrun.
  destruct (find (has_data_type data_type) (cache_status st)) as [cs|]; mrun;
    (destruct (success_count >? 0); mrun;
     [destruct (commit_fails env c); cbn; auto|]);
    match goal with
    | |- context [incr ?x] => destruct (incr x) as [n|e]; mrun
    end;
    try (cbn; auto; fail);
    destruct (n >=? 3); mrun; destruct (commit_fails env c); cbn; auto.
Qed.

Lemma update_cache_status_returns env data_type success_count total_count w :
  fst (_update_cache_status env data_type success_count total_count w) = Ret tt.
Proof.
  unfold _update_cache_status. mrun.
  destruct (find (has_data_type data_type) (cache_status (session w))) as [cs|];
    mrun;
    (destruct (success_count >? 0); mrun;
     [destruct (commit_fails env (commits w)); reflexivity|]);
    match goal with
    | |- context [incr ?x] => destruct (incr x) as [n|e]; mrun
    end;
    try reflexivity;
    destruct (n >=? 3); mrun; destruct (commit_fails env (commits w));
    reflexivity.
Qed.

(** ** Bulk refresh *)

(** One iteration of the refresh loop, in a world whose session is clean. *)
Lemma refresh_each_step env district_code rest current_year success_count w :
  session w = store w ->
  refresh_each env (district_code :: rest) current_year success_count w =
  let log := (district_code, current_year) :: api_calls w in
  match source env (length (api_calls w)) with
  | Some draws =>
      let data :=
        _generate_sample_district_data district_code current_year draws in
      if commit_fails env (commits w)
      then refresh_each env rest current_year success_count
             (mkWorld (store w) (store w) (S (ticks w)) (S (commits w)) log)
      else
        let d := with_district_data
                   (upsert data district_code current_year
                      (clock env (ticks w)) (district_data (store w)))
                   (store w) in
        refresh_each env rest current_year (success_count + 1)
          (mkWorld d d (S (ticks w)) (S (commits w)) log)
  | None =>
      refresh_each env rest current_year success_count
        (mkWorld (store w) (session w) (ticks w) (commits w) log)
  end.
Proof.
  intros Hs. cbn [refresh_each]. unfold get_district_mgnrega_data. mrun.
  destruct (source env (length (api_calls w))) as [draws|]; cbn [option_map];
    [|reflexivity].
  rewrite save_spec by exact Hs.
  cbn [store session ticks commits api_calls].
  destruct (commit_fails env (commits w)); reflexivity.
Qed.

(** ** Invariants of the Record table *)

Section TableInvariant.

(** A property of the Record table that survives the upsert of a payload
    produced by the adapter for the key it is stored under. *)
Variable P : list DistrictData.t -> Prop.
Hypothesis P_upsert :
  forall district_code year draws now rows,
    P rows ->
    P (upsert (_generate_sample_district_data district_code year draws)
         district_code year now rows).

Lemma stable_frame w w' :
  store w' = store w -> session w' = session w -> stable P w -> stable P w'.
Proof. unfold stable. intros -> ->. auto. Qed.

Lemma read_through_stable env district_code cy cached w :
  stable P w -> stable P (snd (read_through env district_code cy cached w)).
Proof.
  intros [Hs Hp]. unfold read_through.
  destruct (source env (length (api_calls w))) as [draws|].
  - destruct (commit_fails env (commits w)); cbn.
    + split; [reflexivity | exact Hp].
    + split; [reflexivity|]. cbn. apply P_upsert. exact Hp.
  - cbn. split; assumption.
Qed.

Lemma get_district_data_stable env district_code year w :
  stable P w -> stable P (snd (get_district_data env district_code year w)).
Proof.
  intros Hc. rewrite get_district_data_cases by apply Hc.
  destruct (goes_to_source env district_code year w) as [w2|] eqn:E.
  - apply read_through_stable.
    destruct (goes_to_source_frame _ _ _ _ _ E) as [F1 [F2 _]].
    exact (stable_frame _ _ F1 F2 Hc).
  - cbn [snd]. destruct (after_year_frame year w) as [F1 [F2 _]].
    apply (stable_frame w); [exact F1 | exact F2 | exact Hc].
Qed.

Lemma get_district_stats_stable env district_code w :
  stable P w -> stable P (snd (get_district_stats env district_code w)).
Proof.
  intros Hc. rewrite get_district_stats_cases by apply Hc. cbv zeta.
  destruct (recomputes_in env district_code w) as [w1|] eqn:E.
  - destruct (recomputes_in_frame _ _ _ _ E) as [F1 [F2 _]].
    assert (Hc1 : stable P w1) by exact (stable_frame _ _ F1 F2 Hc).
    destruct (calculate_frame env district_code w1) as [G1 [G2 _]].
    destruct (_calculate_district_stats env district_code w1) as [o w2].
    cbn [snd] in G1, G2.
    assert (Hc2 : stable P w2) by exact (stable_frame _ _ G1 G2 Hc1).
    destruct o as [[st|]|e]; cbn [snd]; try exact Hc2.
    rewrite save_stats_spec by apply Hc2.
    destruct Hc2 as [Hs Hp].
    destruct (commit_fails env (commits w2)); cbn; split;
      solve [reflexivity | assumption].
  - cbn [snd]. apply (stable_frame w); [reflexivity | reflexivity | exact Hc].
Qed.

Lemma refresh_each_stable env district_codes current_year :
  forall success_count w,
  stable P w ->
  stable P (snd (refresh_each env district_codes current_year success_count w))
  /\ exists n,
       fst (refresh_each env district_codes current_year success_count w) = Ret n.
Proof.
  induction district_codes as [|code rest IH]; intros n w Hc.
  - cbn. split; [exact Hc | eexists; reflexivity].
  - rewrite refresh_each_step by apply Hc. cbv zeta.
    destruct Hc as [Hs Hp].
    destruct (source env (length (api_calls w))) as [draws|];
      [destruct (commit_fails env (commits w))|];
      apply IH; split; cbn; try assumption; try reflexivity.
    apply P_upsert. exact Hp.
Qed.

Lemma refresh_all_data_stable env w :
  stable P w -> stable P (snd (refresh_all_data env w)).
Proof.
  intros Hc. unfold refresh_all_data.
  unfold try_except at 1. unfold bind at 1. unfold get_session at 1.
  unfold bind at 1. unfold datetime_now at 1.
  unfold bind at 1.
  match goal with
  | |- context [refresh_each env ?cs ?y ?n ?w0] =>
      destruct (refresh_each_stable env cs y n w0) as [Hc' [m Hm]];
      [apply (stable_frame w); [reflexivity | reflexivity | exact Hc]|];
      destruct (refresh_each env cs y n w0) as [o w1]
  end.
  cbn [fst snd] in Hc', Hm. subst o.
  match goal with
  | |- context [_update_cache_status env ?dt ?s ?tc w1] =>
      pose proof (update_cache_status_frame env dt s tc w1 (proj1 Hc')) as F;
      pose proof (update_cache_status_returns env dt s tc w1) as R;
      destruct (_update_cache_status env dt s tc w1) as [o w2]
  end.
  cbn [fst snd] in F, R. subst o. cbn [snd].
  destruct F as [F1 [F2 _]]. destruct Hc' as [_ Hp].
  unfold stable. rewrite F2. auto.
Qed.

Lemma serve_stable env r w :
  stable P w -> stable P (snd (serve env r w)).
Proof.
  intros Hc. destruct r as [code year|code|]; cbn [serve].
  - pose proof (get_district_data_stable env code year w Hc) as H.
    unfold bind. destruct (get_district_data env code year w) as [[o|e] w'];
      exact H.
  - pose proof (get_district_stats_stable env code w Hc) as H.
    unfold bind. destruct (get_district_stats env code w) as [[o|e] w'];
      exact H.
  - apply refresh_all_data_stable. exact Hc.
Qed.

Hypothesis P_empty : P [].

Lemma reachable_stable env w : reachable env w -> stable P w.
Proof.
  induction 1 as [|w r _ IH]; [split; [reflexivity | exact P_empty]|].
  apply serve_stable. exact IH.
Qed.

End TableInvariant.

Lemma sample_upsert_unique district_code year draws now rows :
  unique_keys rows ->
  unique_keys (upsert (_generate_sample_district_data district_code year draws)
                 district_code year now rows).
Proof. apply upsert_unique. apply sample_keyed. Qed.


(** ** Claims about the read path *)










(** C8, as stated, fails: a write-back that cannot commit does not reach the
    caller of [get_district_data] as a failure; the read answers [None]. *)
Lemma write_back_failure_is_not_surfaced :
  goes_to_source readonly_env "AP001" (Some 2024) initial_world
    = Some initial_world /\
  fst (_save_district_data_to_cache readonly_env
         (_generate_sample_district_data "AP001" 2024 example_draws)
         "AP001" 2024
         (snd (get_district_mgnrega_data readonly_env "AP001" 2024 initial_world)))
    = Raise SQLAlchemyError /\
  fst (get_district_data readonly_env "AP001" (Some 2024) initial_world)
    = Ret None /\
  forall e,
    fst (get_district_data readonly_env "AP001" (Some 2024) initial_world)
    <> Raise e.
Proof.
  split; [reflexivity|]. split; [reflexivity|]. split; [reflexivity|].
  intros e. discriminate.
Qed.

(** C8 (amended): when a read goes to the source, the fetch succeeds and the
    write-back cannot commit, [_save_district_data_to_cache] rolls the session
    back and re-raises, and [get_district_data] catches the error and returns
    [None]; the store is unchanged and the session is clean. *)
Theorem write_back_failure_rolls_back_and_returns_none
    (env : Env) (district_code : string) (year : option Z) (w w2 : World)
    (draws : Draws) :
  session w = store w ->
  goes_to_source env district_code year w = Some w2 ->
  source env (length (api_calls w)) = Some draws ->
  commit_fails env (commits w) = true ->
  let cy := requested_year env year w in
  let saving :=
    _save_district_data_to_cache env
      (_generate_sample_district_data district_code cy draws) district_code cy
      (snd (get_district_mgnrega_data env district_code cy w2)) in
  fst saving = Raise SQLAlchemyError /\
  store (snd saving) = store w /\
  session (snd saving) = store w /\
  fst (get_district_data env district_code year w) = Ret None /\
  store (snd (get_district_data env district_code year w)) = store w /\
  session (snd (get_district_data env district_code year w)) = store w.
Proof.
  intros Hs G Hsrc Hcommit cy saving.
  destruct (goes_to_source_frame _ _ _ _ _ G) as [F1 [F2 [F3 F4]]].
  assert (Hs2 : session w2 = store w2) by congruence.
  subst saving. rewrite save_spec by exact Hs2.
  rewrite get_district_data_cases by exact Hs. rewrite G.
  unfold read_through, get_district_mgnrega_data.
  cbn [snd store session commits ticks api_calls].
  rewrite F4, F3, Hsrc, Hcommit. cbv zeta. cbn [fst snd store session].
  repeat split; exact F1.
Qed.

Lemma write_back_failure_rolls_back_and_returns_none_witness :
  session initial_world = store initial_world /\
  goes_to_source readonly_env "AP001" (Some 2024) initial_world
    = Some initial_world /\
  source readonly_env (length (api_calls initial_world)) = Some example_draws /\
  commit_fails readonly_env (commits initial_world) = true /\
  fst (get_district_data readonly_env "AP001" (Some 2024) initial_world)
    = Ret None /\
  store (snd (get_district_data readonly_env "AP001" (Some 2024) initial_world))
    = store initial_world.
Proof.
  repeat (split; [reflexivity|]).
  destruct (write_back_failure_rolls_back_and_returns_none readonly_env "AP001"
              (Some 2024) initial_world initial_world example_draws
              eq_refl eq_refl eq_refl eq_refl) as [_ [_ [_ [H1 [H2 _]]]]].
  split; assumption.
Defined.

(** ** Claims about the upsert *)

Lemma find_update_first {A} p (r' : A) rows ex :
  find p rows = Some ex -> p r' = true ->
  find p (update_first p (fun _ => r') rows) = Some r'.
Proof.
  intros Hf Hp. induction rows as [|x rows IH]; [discriminate|].
  cbn [find] in Hf. cbn [update_first].
  destruct (p x) eqn:E.
  - cbn [find]. rewrite Hp. reflexivity.
  - cbn [find]. rewrite E. apply IH. exact Hf.
Qed.

Lemma find_snoc {A} p (r : A) rows :
  find p rows = None -> p r = true -> find p (rows ++ [r]) = Some r.
Proof.
  intros Hf Hp. induction rows as [|x rows IH].
  - cbn. rewrite Hp. reflexivity.
  - cbn [find] in Hf. cbn [app find].
    destruct (p x); [discriminate|]. apply IH. exact Hf.
Qed.

Lemma saved_record_key data district_code year now rows :
  keyed data district_code year ->
  same_key district_code year (saved_record data district_code year now rows)
  = true.
Proof.
  intros [Hc Hy]. apply same_key_true. unfold saved_record, key_of.
  destruct (find _ rows); cbn; congruence.
Qed.

Lemma find_upsert data district_code year now rows :
  keyed data district_code year ->
  find (same_key district_code year) (upsert data district_code year now rows)
  = Some (saved_record data district_code year now rows).
Proof.
  intros Hk. pose proof (saved_record_key data district_code year now rows Hk) as Hs.
  unfold upsert, saved_record in *.
  destruct (find (same_key district_code year) rows) as [ex|] eqn:Hf.
  - exact (find_update_first _ _ _ _ Hf Hs).
  - exact (find_snoc _ _ _ Hf Hs).
Qed.





(** ** Claims about the stats path *)

(** C10: when the stats are recomputed and cannot be persisted, the stats
    upsert swallows the error and returns normally, [get_district_stats]
    still returns the recomputed stats, and the store, with any stats row it
    held, is as before. *)
Theorem stats_returned_when_persisting_fails
    (env : Env) (district_code : string) (w w1 w2 : World) (st : Stats.t) :
  session w = store w ->
  recomputes_in env district_code w = Some w1 ->
  _calculate_district_stats env district_code w1 = (Ret (Some st), w2) ->
  commit_fails env (commits w) = true ->
  fst (_save_district_stats_to_cache env st district_code w2) = Ret tt /\
  fst (get_district_stats env district_code w) = Ret (Some (ComputedStats st)) /\
  store (snd (get_district_stats env district_code w)) = store w /\
  session (snd (get_district_stats env district_code w)) = store w.
Proof.
  intros Hs Hr Hcalc Hc.
  destruct (recomputes_in_frame _ _ _ _ Hr) as [F1 [F2 [F3 _]]].
  pose proof (calculate_frame env district_code w1) as G.
  rewrite Hcalc in G. cbn [snd] in G. destruct G as [G1 [G2 [G3 _]]].
  assert (Hs2 : session w2 = store w2) by congruence.
  assert (Hc2 : commit_fails env (commits w2) = true) by congruence.
  rewrite get_district_stats_cases by exact Hs. cbv zeta.
  rewrite Hr, Hcalc. rewrite save_stats_spec by exact Hs2. rewrite Hc2.
  cbn [fst snd store session]. repeat split; congruence.
Qed.

Lemma stats_returned_when_persisting_fails_witness :
  session one_record_world = store one_record_world /\
  recomputes_in readonly_env "AP001" one_record_world = Some one_record_world /\
  commit_fails readonly_env (commits one_record_world) = true /\
  exists st,
    fst (get_district_stats readonly_env "AP001" one_record_world)
      = Ret (Some (ComputedStats st)) /\
    store (snd (get_district_stats readonly_env "AP001" one_record_world))
      = store one_record_world.
Proof.
  repeat (split; [reflexivity|]).
  eexists.
  refine ((fun H => conj (proj1 (proj2 H)) (proj1 (proj2 (proj2 H))))
            (stats_returned_when_persisting_fails readonly_env "AP001"
               one_record_world one_record_world _ _ eq_refl eq_refl _ eq_refl)).
  vm_compute. reflexivity.
Defined.

(** ** Claims about the health tracker *)

Lemma update_cache_status_spec env data_type success_count total_count w :
  session w = store w ->
  _update_cache_status env data_type success_count total_count w =
  let rows := cache_status (store w) in
  let t0 := clock env (ticks w) in
  let t1 := clock env (S (ticks w)) in
  let t2 := clock env (S (S (ticks w))) in
  let lost :=
    (Ret tt,
     mkWorld (store w) (store w) (S (ticks w)) (commits w) (api_calls w)) in
  match find (has_data_type data_type) rows with
  | Some cs =>
      if success_count >? 0
      then finish env w 3
             (update_first (has_data_type data_type)
                (fun _ => after_success cs success_count t0 t1 t2) rows)
      else
        match CacheStatus.failed_attempts cs with
        | Some n =>
            finish env w 2
              (update_first (has_data_type data_type)
                 (fun _ => after_failure cs success_count n t0 t1) rows)
        | None => lost
        end
  | None =>
      if success_count >? 0
      then finish env w 3
             (update_first (has_data_type data_type)
                (fun _ => after_success (CacheStatus.new data_type)
                            success_count t0 t1 t2)
                (rows ++ [CacheStatus.new data_type]))
      else lost
  end.
Proof.
  destruct w as [st se t c a]. cbn [session store]. intros ->.
  unfold _update_cache_status, finish, after_success, after_failure. mrun.
  destruct (find (has_data_type data_type) (cache_status st)) as [cs|]; mrun;
    (destruct (success_count >? 0); mrun;
     [destruct (commit_fails env c); reflexivity|]).
  - destruct (CacheStatus.failed_attempts cs) as [n|];
      cbn [incr CacheStatus.failed_attempts]; mrun; [|reflexivity].
    destruct (n + 1 >=? 3); mrun; destruct (commit_fails env c); reflexivity.
  - reflexivity.
Qed.

Lemma has_data_type_found data_type rows cs :
  find (has_data_type data_type) rows = Some cs ->
  CacheStatus.data_type cs = data_type.
Proof.
  intros H. apply find_some in H. destruct H as [_ H].
  apply String.eqb_eq. exact H.
Qed.

(** On a tracked data type whose counter holds a number the update does what
    the health policy says: a success resets the counter and marks the source
    active, a refresh without success adds one to the counter and marks the
    source down from three on, leaving status and stale flag alone below. *)
Lemma update_cache_status_tracked env data_type success_count total_count w cs n :
  session w = store w ->
  find (has_data_type data_type) (cache_status (store w)) = Some cs ->
  CacheStatus.failed_attempts cs = Some n ->
  commit_fails env (commits w) = false ->
  let w' := snd (_update_cache_status env data_type success_count total_count w) in
  find (has_data_type data_type) (cache_status (store w')) =
  Some (if success_count >? 0
        then after_success cs success_count (clock env (ticks w))
               (clock env (S (ticks w))) (clock env (S (S (ticks w))))
        else after_failure cs success_count n (clock env (ticks w))
               (clock env (S (ticks w)))) /\
  session w' = store w' /\ commits w' = S (commits w).
Proof.
  intros Hs Hf Hn Hc w'. subst w'.
  rewrite update_cache_status_spec by exact Hs. cbv zeta.
  rewrite Hf, Hn. unfold finish. rewrite Hc.
  pose proof (has_data_type_found _ _ _ Hf) as Hdt.
  destruct (success_count >? 0); cbn [snd store session commits
    cache_status with_cache_status];
    (split; [|split; reflexivity]);
    apply (find_update_first _ _ _ _ Hf);
    unfold has_data_type; cbn; apply String.eqb_eq; exact Hdt.
Qed.

(** Three refreshes without success in a row, from a counter at zero, mark the
    source down and the data stale. *)
Lemma three_failures_mark_down env data_type total_count w cs :
  session w = store w ->
  find (has_data_type data_type) (cache_status (store w)) = Some cs ->
  CacheStatus.failed_attempts cs = Some 0 ->
  commit_fails env (commits w) = false ->
  commit_fails env (S (commits w)) = false ->
  commit_fails env (S (S (commits w))) = false ->
  let w1 := snd (_update_cache_status env data_type 0 total_count w) in
  let w2 := snd (_update_cache_status env data_type 0 total_count w1) in
  let w3 := snd (_update_cache_status env data_type 0 total_count w2) in
  exists cs3,
    find (has_data_type data_type) (cache_status (store w3)) = Some cs3 /\
    CacheStatus.failed_attempts cs3 = Some 3 /\
    CacheStatus.api_status cs3 = Some "down"%string /\
    CacheStatus.is_stale cs3 = Some true.
Proof.
  intros Hs Hf Hn Hc1 Hc2 Hc3 w1 w2 w3.
  destruct (update_cache_status_tracked env data_type 0 total_count w cs 0
              Hs Hf Hn Hc1) as [Hf1 [Hs1 Hk1]].
  fold w1 in Hf1, Hs1, Hk1. cbn [Z.gtb Z.compare] in Hf1.
  rewrite <- Hk1 in Hc2.
  destruct (update_cache_status_tracked env data_type 0 total_count w1 _ 1
              Hs1 Hf1 eq_refl Hc2) as [Hf2 [Hs2 Hk2]].
  fold w2 in Hf2, Hs2, Hk2. cbn [Z.gtb Z.compare] in Hf2.
  rewrite <- Hk1, <- Hk2 in Hc3.
  destruct (update_cache_status_tracked env data_type 0 total_count w2 _ 2
              Hs2 Hf2 eq_refl Hc3) as [Hf3 _].
  fold w3 in Hf3. cbn [Z.gtb Z.compare] in Hf3.
  eexists. split; [exact Hf3|]. cbn. auto.
Qed.

(** C4 at its failing input: on a store that does not track the data type
    yet, an update without success records nothing, however often it is
    repeated: no row is created, no counter is incremented, and the status
    never becomes down.  A bulk refresh of an empty store is such an update. *)
Theorem zero_success_on_untracked_type_records_nothing
    (env : Env) (data_type : string) (total_count : Z) :
  let w1 := snd (_update_cache_status env data_type 0 total_count initial_world) in
  let w2 := snd (_update_cache_status env data_type 0 total_count w1) in
  let w3 := snd (_update_cache_status env data_type 0 total_count w2) in
  fst (_update_cache_status env data_type 0 total_count initial_world) = Ret tt /\
  store w1 = store initial_world /\
  store w3 = store initial_world /\
  find (has_data_type data_type) (cache_status (store w3)) = None /\
  cache_status (store (snd (refresh_all_data env initial_world))) = [].
Proof.
  cbv zeta.
  assert (H : forall w, session w = store w -> cache_status (store w) = [] ->
            _update_cache_status env data_type 0 total_count w
            = (Ret tt, mkWorld (store w) (store w) (S (ticks w)) (commits w)
                         (api_calls w))).
  { intros w Hs He. rewrite update_cache_status_spec by exact Hs.
    cbv zeta. rewrite He. reflexivity. }
  rewrite (H initial_world eq_refl eq_refl). cbn [snd fst].
  rewrite H by reflexivity. cbn [snd].
  rewrite H by reflexivity. cbn [snd store].
  repeat split.
Qed.

(** ** Recent records *)

Lemma insert_desc_In r x l : In x (insert_desc r l) <-> x = r \/ In x l.
Proof.
  induction l as [|y l IH]; cbn [insert_desc].
  - cbn. intuition.
  - destruct (DistrictData.year y <=? DistrictData.year r); cbn [In].
    + intuition.
    + rewrite IH. intuition.
Qed.

Lemma order_by_year_desc_In x l : In x (order_by_year_desc l) <-> In x l.
Proof.
  induction l as [|y l IH]; [reflexivity|].
  cbn [order_by_year_desc fold_right]. rewrite insert_desc_In.
  fold (order_by_year_desc l). rewrite IH. cbn. intuition.
Qed.



Lemma firstn_In_weak {A} n (x : A) l : In x (firstn n l) -> In x l.
Proof.
  revert l. induction n as [|n IH]; intros [|y l] H; cbn in *; try contradiction.
  destruct H as [H|H]; [left; exact H | right; apply IH; exact H].
Qed.



(** ** Arithmetic of the score and the trends *)
















(** In a store the service has filled, the inputs of the trends are always
    present: the adapter's payloads carry both totals. *)
Lemma sample_upsert_totals district_code year draws now rows :
  totals_present rows ->
  totals_present (upsert (_generate_sample_district_data district_code year draws)
                    district_code year now rows).
Proof.
  intros H. unfold upsert, totals_present.
  destruct (find (same_key district_code year) rows) as [ex|].
  - apply update_first_Forall; [exact H|].
    intros r _ _. cbn. split; discriminate.
  - apply Forall_app. split; [exact H|]. constructor; [|constructor].
    cbn. split; discriminate.
Qed.

Lemma reachable_trend_inputs_present env district_code w :
  reachable env w ->
  trend_inputs_present (recent_data_of district_code (session w)) = true.
Proof.
  intros Hr.
  apply (reachable_stable totals_present sample_upsert_totals) in Hr;
    [|constructor].
  destruct Hr as [Hs Hp]. rewrite Hs.
  assert (Hin : forall r, In r (recent_data_of district_code (store w)) ->
                          In r (district_data (store w))).
  { intros r H. unfold recent_data_of in H. apply firstn_In_weak in H.
    apply (proj1 (order_by_year_desc_In _ _)) in H.
    apply (proj1 (filter_In _ _ _)) in H. apply H. }
  unfold totals_present in Hp. rewrite Forall_forall in Hp.
  destruct (recent_data_of district_code (store w)) as [|cur [|prev rest]];
    try reflexivity.
  cbn [trend_inputs_present].
  destruct (Hp cur (Hin cur (or_introl eq_refl))) as [C1 C2].
  destruct (Hp prev (Hin prev (or_intror (or_introl eq_refl)))) as [P1 P2].
  destruct (total_person_days (DistrictData.metrics cur)); [|contradiction].
  destruct (total_person_days (DistrictData.metrics prev)); [|contradiction].
  destruct (total_expenditure (DistrictData.metrics cur)); [|contradiction].
  destruct (total_expenditure (DistrictData.metrics prev)); [|contradiction].
  reflexivity.
Qed.

(** Two stored years with 800 then 1000 person-days give a trend of 25. *)
Example employment_trend_scenario :
  option_map Stats.employment_trend
    (match fst (_calculate_district_stats flaky_env "AP001"
                  (let d := mkDb [example_record 2023 800 40;
                                  example_record 2024 1000 50] [] [] in
                   mkWorld d d 0 0 [])) with
     | Ret o => o
     | Raise _ => None
     end)
  = Some (25 # 1)%Q.
Proof. vm_compute. reflexivity. Qed.

(** * Further properties of the service *)

(** ** The read path, continued *)

Lemma find_update_first_other {A} (p q : A -> bool) (r' : A) rows :
  (forall x, p x = true -> q x = false) -> q r' = false ->
  find q (update_first p (fun _ => r') rows) = find q rows.
Proof.
  intros Hpq Hr. induction rows as [|x rows IH]; [reflexivity|].
  cbn [update_first]. destruct (p x) eqn:E.
  - cbn [find]. rewrite Hr, (Hpq x E). reflexivity.
  - cbn [find]. destruct (q x); [reflexivity | exact IH].
Qed.

Lemma find_snoc_other {A} (q : A -> bool) (r : A) rows :
  q r = false -> find q (rows ++ [r]) = find q rows.
Proof.
  intros Hr. induction rows as [|x rows IH].
  - cbn. rewrite Hr. reflexivity.
  - cbn [app find]. destruct (q x); [reflexivity | exact IH].
Qed.

Lemma same_key_other c y c' y' r :
  (c', y') <> (c, y) -> same_key c y r = true -> same_key c' y' r = false.
Proof.
  intros Hne H. apply same_key_true in H.
  destruct (same_key c' y' r) eqn:E; [|reflexivity].
  apply same_key_true in E. congruence.
Qed.

(** The upsert for one key leaves the row found for any other key alone. *)
Lemma find_upsert_other data c y now rows c' y' :
  keyed data c y -> (c', y') <> (c, y) ->
  find (same_key c' y') (upsert data c y now rows) = find (same_key c' y') rows.
Proof.
  intros Hk Hne. unfold upsert.
  destruct (find (same_key c y) rows) as [ex|].
  - apply find_update_first_other.
    + intros x. apply same_key_other. exact Hne.
    + apply (same_key_other c y); [exact Hne|].
      pose proof (saved_record_key data c y now [] Hk) as H.
      destruct Hk as [Hc Hy]. apply same_key_true. unfold key_of, overwrite.
      cbn. congruence.
  - apply find_snoc_other. apply (same_key_other c y); [exact Hne|].
    apply same_key_true. reflexivity.
Qed.

(** A read can replace or add the Record of the key it is for; the Record
    cached under any other key is the same after the read as before. *)
Theorem read_leaves_other_keys_alone
    (env : Env) (district_code : string) (year : option Z) (w : World)
    (c' : string) (y' : Z) :
  session w = store w ->
  (c', y') <> (district_code, requested_year env year w) ->
  find (same_key c' y')
    (district_data (store (snd (get_district_data env district_code year w))))
  = find (same_key c' y') (district_data (store w)).
Proof.
  intros Hs Hne. rewrite get_district_data_cases by exact Hs.
  destruct (goes_to_source env district_code year w) as [w2|] eqn:G.
  - destruct (goes_to_source_frame _ _ _ _ _ G) as [F1 _].
    unfold read_through.
    destruct (source env (length (api_calls w2))) as [draws|];
      [destruct (commit_fails env (commits w2))|];
      cbn [snd store district_data with_district_data]; rewrite ?F1;
      try reflexivity.
    apply find_upsert_other; [apply sample_keyed | exact Hne].
  - cbn [snd]. destruct (after_year_frame year w) as [F1 _].
    cbn [tick store]. rewrite F1. reflexivity.
Qed.

Lemma read_leaves_other_keys_alone_witness :
  session one_record_world = store one_record_world /\
  find (same_key "AP001" 2024)
    (district_data
       (store (snd (get_district_data flaky_env "BR001" (Some 2024)
                      one_record_world))))
  = find (same_key "AP001" 2024) (district_data (store one_record_world)).
Proof.
  split; [reflexivity|].
  apply (read_leaves_other_keys_alone flaky_env "BR001" (Some 2024)
           one_record_world "AP001" 2024 eq_refl).
  intros H. discriminate H.
Defined.

(** A read invokes the adapter at most once, and then for the key it reads. *)
Theorem read_calls_adapter_at_most_once
    (env : Env) (district_code : string) (year : option Z) (w : World) :
  session w = store w ->
  let w' := snd (get_district_data env district_code year w) in
  api_calls w' = api_calls w \/
  api_calls w' = (district_code, requested_year env year w) :: api_calls w.
Proof.
  intros Hs w'. subst w'. rewrite get_district_data_cases by exact Hs.
  destruct (goes_to_source env district_code year w) as [w2|] eqn:G.
  - destruct (goes_to_source_frame _ _ _ _ _ G) as [_ [_ [_ F4]]].
    right. unfold read_through.
    destruct (source env (length (api_calls w2))) as [draws|];
      [destruct (commit_fails env (commits w2))|];
      cbn [snd api_calls]; rewrite F4; reflexivity.
  - left. cbn [snd]. destruct (after_year_frame year w) as [_ [_ [_ F4]]].
    exact F4.
Qed.

Lemma read_calls_adapter_at_most_once_witness :
  session initial_world = store initial_world /\
  api_calls (snd (get_district_data flaky_env "AP001" (Some 2024) initial_world))
  = [("AP001"%string, 2024)].
Proof.
  split; [reflexivity|].
  destruct (read_calls_adapter_at_most_once flaky_env "AP001" (Some 2024)
              initial_world eq_refl) as [H|H].
  - reflexivity.
  - exact H.
Defined.



(** ** The stats path, continued *)



(** What a stats read does to the world: the clock and possibly one commit
    that replaces the stats table by its upsert. *)
Lemma get_district_stats_effect env district_code w :
  session w = store w ->
  let w' := snd (get_district_stats env district_code w) in
  session w' = store w' /\
  api_calls w' = api_calls w /\
  district_data (store w') = district_data (store w) /\
  cache_status (store w') = cache_status (store w) /\
  (district_stats (store w') = district_stats (store w) \/
   exists st now,
     district_stats (store w')
     = upsert_stats st district_code now (district_stats (store w))).
Proof.
  intros Hs. cbv zeta. rewrite get_district_stats_cases by exact Hs. cbv zeta.
  destruct (recomputes_in env district_code w) as [w1|] eqn:E.
  - destruct (recomputes_in_frame _ _ _ _ E) as [F1 [F2 [F3 F4]]].
    destruct (calculate_frame env district_code w1) as [G1 [G2 [G3 G4]]].
    destruct (_calculate_district_stats env district_code w1) as [o w2].
    cbn [snd] in G1, G2, G3, G4.
    assert (Hs2 : session w2 = store w2) by congruence.
    assert (S2 : store w2 = store w) by congruence.
    assert (A2 : api_calls w2 = api_calls w) by congruence.
    destruct o as [[st|]|e]; cbn [snd];
      try (repeat split; solve [congruence | left; congruence]).
    rewrite save_stats_spec by exact Hs2.
    destruct (commit_fails env (commits w2));
      cbn [snd store session api_calls district_data district_stats
           cache_status with_district_stats];
      repeat split; try congruence.
    + left. congruence.
    + right. exists st, (clock env (ticks w2)). rewrite S2. reflexivity.
  - cbn [snd tick store session api_calls]. repeat split; auto.
Qed.

(** Stats are derived from the cache only: a stats read never invokes the
    adapter and never changes the Record table or the health table. *)
Theorem stats_read_touches_only_stats
    (env : Env) (district_code : string) (w : World) :
  session w = store w ->
  let w' := snd (get_district_stats env district_code w) in
  api_calls w' = api_calls w /\
  district_data (store w') = district_data (store w) /\
  cache_status (store w') = cache_status (store w).
Proof.
  intros Hs w'.
  destruct (get_district_stats_effect env district_code w Hs)
    as [_ [H1 [H2 [H3 _]]]].
  auto.
Qed.

Lemma stats_read_touches_only_stats_witness :
  session one_record_world = store one_record_world /\
  api_calls (snd (get_district_stats flaky_env "AP001" one_record_world))
  = api_calls one_record_world /\
  district_data (store (snd (get_district_stats flaky_env "AP001" one_record_world)))
  = district_data (store one_record_world).
Proof.
  split; [reflexivity|].
  destruct (stats_read_touches_only_stats flaky_env "AP001" one_record_world
              eq_refl) as [H1 [H2 _]].
  split; assumption.
Defined.

Lemma get_district_stats_fresh env district_code w c lu :
  session w = store w ->
  find (has_stats_code district_code) (district_stats (store w)) = Some c ->
  DistrictStats.last_updated c = Some lu ->
  clock env (ticks w) - lu <= max_age ->
  get_district_stats env district_code w
  = (Ret (Some (FormattedStats c)), tick w).
Proof.
  intros Hs Hf Hlu Hage. rewrite get_district_stats_cases by exact Hs.
  cbv zeta. unfold recomputes_in. rewrite Hf, Hlu.
  replace (lu <? clock env (ticks w) - max_age) with false
    by (symmetry; apply Z.ltb_ge; lia).
  reflexivity.
Qed.

(** Cached stats no older than [max_age] are returned as they are, without
    recomputation and without a write. *)
Theorem fresh_stats_served_from_cache
    (env : Env) (district_code : string) (w : World)
    (c : DistrictStats.t) (lu : datetime) :
  session w = store w ->
  find (has_stats_code district_code) (district_stats (store w)) = Some c ->
  DistrictStats.last_updated c = Some lu ->
  clock env (ticks w) - lu <= max_age ->
  fst (get_district_stats env district_code w) = Ret (Some (FormattedStats c)) /\
  store (snd (get_district_stats env district_code w)) = store w /\
  commits (snd (get_district_stats env district_code w)) = commits w.
Proof.
  intros Hs Hf Hlu Hage.
  rewrite (get_district_stats_fresh _ _ _ _ _ Hs Hf Hlu Hage). cbn. auto.
Qed.

(** With no Record of the district in the cache nothing can be computed: the
    read falls back to the cached stats, stale or not, and to [None] when
    there are none; nothing is written. *)
Theorem stats_without_records_fall_back
    (env : Env) (district_code : string) (w : World) :
  session w = store w ->
  filter (has_code district_code) (district_data (store w)) = [] ->
  fst (get_district_stats env district_code w)
  = Ret (option_map FormattedStats
           (find (has_stats_code district_code) (district_stats (store w)))) /\
  store (snd (get_district_stats env district_code w)) = store w.
Proof.
  intros Hs He. rewrite get_district_stats_cases by exact Hs. cbv zeta.
  destruct (recomputes_in env district_code w) as [w1|] eqn:E.
  - destruct (recomputes_in_frame _ _ _ _ E) as [F1 [F2 _]].
    rewrite calculate_spec. unfold recent_data_of.
    rewrite F2, Hs, He. cbn. auto.
  - cbn [fst snd tick store]. split; [|reflexivity].
    unfold recomputes_in in E.
    destruct (find _ _) as [c|]; [|discriminate]. reflexivity.
Qed.

Lemma stats_without_records_fall_back_witness :
  session one_record_world = store one_record_world /\
  filter (has_code "BR001") (district_data (store one_record_world)) = [] /\
  fst (get_district_stats flaky_env "BR001" one_record_world) = Ret None.
Proof.
  split; [reflexivity|]. split; [reflexivity|].
  apply (stats_without_records_fall_back flaky_env "BR001" one_record_world
           eq_refl eq_refl).
Defined.

Lemma fresh_stats_served_from_cache_witness :
  session stats_world = store stats_world /\
  exists c lu,
    find (has_stats_code "AP001") (district_stats (store stats_world)) = Some c /\
    DistrictStats.last_updated c = Some lu /\
    clock (steady_env (noon + timedelta_hours 100)) (ticks stats_world) - lu
      <= max_age /\
    fst (get_district_stats (steady_env (noon + timedelta_hours 100)) "AP001"
           stats_world)
    = Ret (Some (FormattedStats c)).
Proof.
  split; [reflexivity|].
  eexists. exists (noon + timedelta_hours 96).
  split; [vm_compute; reflexivity|].
  split; [reflexivity|].
  split; [vm_compute; discriminate|].
  match goal with
  | |- fst _ = Ret (Some (FormattedStats ?c)) =>
      apply (fresh_stats_served_from_cache
               (steady_env (noon + timedelta_hours 100)) "AP001" stats_world
               c (noon + timedelta_hours 96) eq_refl)
  end.
  - vm_compute. reflexivity.
  - reflexivity.
  - vm_compute. discriminate.
Defined.

Lemma find_upsert_stats stats district_code now rows :
  find (has_stats_code district_code) (upsert_stats stats district_code now rows)
  = Some (match find (has_stats_code district_code) rows with
          | Some ex => overwrite_stats ex stats now
          | None => create_stats district_code stats now
          end).
Proof.
  unfold upsert_stats.
  destruct (find (has_stats_code district_code) rows) as [ex|] eqn:Hf.
  - apply (find_update_first _ _ _ _ Hf).
    apply find_some in Hf. destruct Hf as [_ Hf]. exact Hf.
  - apply find_snoc; [exact Hf|]. unfold has_stats_code. cbn.
    apply String.eqb_refl.
Qed.

Lemma find_upsert_stats_other stats district_code now rows other :
  other <> district_code ->
  find (has_stats_code other) (upsert_stats stats district_code now rows)
  = find (has_stats_code other) rows.
Proof.
  intros Hne.
  assert (Hq : forall x, has_stats_code district_code x = true ->
                         has_stats_code other x = false).
  { intros x H. unfold has_stats_code in *. apply String.eqb_eq in H.
    rewrite H. apply String.eqb_neq. congruence. }
  unfold upsert_stats.
  destruct (find (has_stats_code district_code) rows) as [ex|] eqn:Hf.
  - apply find_update_first_other; [exact Hq|]. apply Hq.
    apply find_some in Hf. destruct Hf as [_ Hf]. exact Hf.
  - apply find_snoc_other. apply Hq. unfold has_stats_code. cbn.
    apply String.eqb_refl.
Qed.

(** Stats round trip: when the stats are recomputed and the write commits,
    the row stored for the district holds the values returned to the caller
    and the time of the write, the rows of other districts are untouched, and
    the next read, if it comes no later than [max_age] after the write,
    returns the stored row without recomputing. *)
Theorem recomputed_stats_are_stored
    (env : Env) (district_code : string) (w w1 w2 : World) (st : Stats.t) :
  session w = store w ->
  recomputes_in env district_code w = Some w1 ->
  _calculate_district_stats env district_code w1 = (Ret (Some st), w2) ->
  commit_fails env (commits w) = false ->
  let w' := snd (get_district_stats env district_code w) in
  exists row,
    fst (get_district_stats env district_code w) = Ret (Some (ComputedStats st)) /\
    find (has_stats_code district_code) (district_stats (store w')) = Some row /\
    DistrictStats.performance_score row = Some (Stats.performance_score st) /\
    DistrictStats.employment_trend row = Some (Stats.employment_trend st) /\
    DistrictStats.expenditure_trend row = Some (Stats.expenditure_trend st) /\
    DistrictStats.total_beneficiaries row = Some (Stats.total_beneficiaries st) /\
    DistrictStats.total_investment row = Some (Stats.total_investment st) /\
    DistrictStats.last_updated row = Some (clock env (ticks w2)) /\
    (forall other, other <> district_code ->
       find (has_stats_code other) (district_stats (store w'))
       = find (has_stats_code other) (district_stats (store w))) /\
    (clock env (ticks w') - clock env (ticks w2) <= max_age ->
     fst (get_district_stats env district_code w')
     = Ret (Some (FormattedStats row))).
Proof.
  intros Hs Hr Hcalc Hc w'.
  destruct (recomputes_in_frame _ _ _ _ Hr) as [F1 [F2 [F3 _]]].
  pose proof (calculate_frame env district_code w1) as G.
  rewrite Hcalc in G. cbn [snd] in G. destruct G as [G1 [G2 [G3 _]]].
  assert (Hs2 : session w2 = store w2) by congruence.
  assert (Hc2 : commit_fails env (commits w2) = false) by congruence.
  assert (S2 : store w2 = store w) by congruence.
  set (rows := district_stats (store w)).
  set (now := clock env (ticks w2)).
  set (d := with_district_stats (upsert_stats st district_code now rows) (store w)).
  assert (E : get_district_stats env district_code w
              = (Ret (Some (ComputedStats st)),
                 mkWorld d d (S (ticks w2)) (S (commits w2)) (api_calls w2))).
  { rewrite get_district_stats_cases by exact Hs. cbv zeta.
    rewrite Hr, Hcalc. rewrite save_stats_spec by exact Hs2. rewrite Hc2.
    cbv zeta. cbn [snd]. rewrite S2. reflexivity. }
  subst w'. rewrite E. cbn [fst snd store d district_stats with_district_stats].
  pose proof (find_upsert_stats st district_code now rows) as Hfind.
  eexists. split; [reflexivity|]. split; [exact Hfind|].
  repeat (split; [destruct (find (has_stats_code district_code) rows);
                  reflexivity|]).
  split.
  - intros other Hne. apply find_upsert_stats_other. exact Hne.
  - intros Hage. cbn [ticks] in Hage.
    rewrite (get_district_stats_fresh env district_code
               (mkWorld d d (S (ticks w2)) (S (commits w2)) (api_calls w2))
               _ now eq_refl Hfind).
    + reflexivity.
    + destruct (find (has_stats_code district_code) rows); reflexivity.
    + cbn [ticks]. exact Hage.
Qed.

Lemma recomputed_stats_are_stored_witness :
  session one_record_world = store one_record_world /\
  recomputes_in flaky_env "AP001" one_record_world = Some one_record_world /\
  commit_fails flaky_env (commits one_record_world) = false /\
  exists row,
    find (has_stats_code "AP001") (district_stats (store stats_world)) = Some row /\
    DistrictStats.performance_score row = Some (6767 # 100)%Q.
Proof.
  repeat (split; [reflexivity|]).
  assert (E : exists st w2,
             _calculate_district_stats flaky_env "AP001" one_record_world
             = (Ret (Some st), w2) /\
             Stats.performance_score st = (6767 # 100)%Q).
  { eexists. eexists. split; vm_compute; reflexivity. }
  destruct E as [st [w2 [E Hscore]]].
  destruct (recomputed_stats_are_stored flaky_env "AP001" one_record_world
              one_record_world w2 st eq_refl eq_refl E eq_refl)
    as [row [_ [H1 [H2 _]]]].
  exists row. split; [exact H1|]. rewrite H2, Hscore. reflexivity.
Defined.

(** A NULL total in the second most recent Record makes the comparison in the
    trend raise; the recomputation then yields nothing at all, not even the
    score of the most recent Record. *)
Theorem null_previous_total_voids_stats
    (env : Env) (district_code : string) (w : World)
    (cur prev : DistrictData.t) (rest : list DistrictData.t) :
  recent_data_of district_code (session w) = cur :: prev :: rest ->
  total_person_days (DistrictData.metrics prev) = None \/
  total_expenditure (DistrictData.metrics prev) = None ->
  _calculate_district_stats env district_code w = (Ret None, w).
Proof.
  intros E H. rewrite calculate_spec, E. unfold trends_of.
  destruct H as [H|H].
  - rewrite H. reflexivity.
  - rewrite H.
    destruct (gt0 (total_person_days (DistrictData.metrics prev)))
      as [grew|e]; [|reflexivity].
    destruct (if grew then _ else _); reflexivity.
Qed.

Lemma null_previous_total_voids_stats_witness :
  recent_data_of "AP001" (session partial_world)
    = [example_record 2024 1000 50; partial_record 2023] /\
  fst (_calculate_district_stats flaky_env "AP001" partial_world) = Ret None.
Proof.
  split; [reflexivity|].
  rewrite (null_previous_total_voids_stats flaky_env "AP001" partial_world
             (example_record 2024 1000 50) (partial_record 2023) []
             eq_refl (or_introl eq_refl)).
  reflexivity.
Defined.

(** ** Bulk refresh, continued *)





(** ** The health tracker, continued *)

Lemma status_row_type data_type rows :
  CacheStatus.data_type (status_row data_type rows) = data_type.
Proof.
  unfold status_row.
  destruct (find (has_data_type data_type) rows) as [c|] eqn:Hf.
  - exact (has_data_type_found _ _ _ Hf).
  - reflexivity.
Qed.

Lemma update_cache_status_success env data_type success_count total_count w :
  session w = store w ->
  success_count > 0 ->
  commit_fails env (commits w) = false ->
  let w' := snd (_update_cache_status env data_type success_count total_count w) in
  find (has_data_type data_type) (cache_status (store w'))
  = Some (after_success (status_row data_type (cache_status (store w)))
            success_count (clock env (ticks w)) (clock env (S (ticks w)))
            (clock env (S (S (ticks w))))) /\
  session w' = store w'.
Proof.
  intros Hs Hpos Hc w'. subst w'.
  rewrite update_cache_status_spec by exact Hs. cbv zeta.
  replace (success_count >? 0) with true by (symmetry; apply Z.gtb_lt; lia).
  unfold finish, status_row. rewrite Hc.
  destruct (find (has_data_type data_type) (cache_status (store w)))
    as [cs|] eqn:Hf;
    cbn [snd store session cache_status with_cache_status];
    (split; [|reflexivity]).
  - apply (find_update_first _ _ _ _ Hf).
    unfold has_data_type. cbn. apply String.eqb_eq.
    exact (has_data_type_found _ _ _ Hf).
  - apply (find_update_first _ _ _ (CacheStatus.new data_type)).
    + apply find_snoc; [exact Hf|]. unfold has_data_type. cbn.
      apply String.eqb_refl.
    + unfold has_data_type. cbn. apply String.eqb_refl.
Qed.

(** A refresh with at least one success marks the source healthy whatever
    the row said before, and creates the row if the data type was untracked:
    counter 0, status active, not stale, the count and the time recorded. *)
Theorem success_marks_source_active
    (env : Env) (data_type : string) (success_count total_count : Z) (w : World) :
  session w = store w ->
  success_count > 0 ->
  commit_fails env (commits w) = false ->
  let w' := snd (_update_cache_status env data_type success_count total_count w) in
  exists cs,
    find (has_data_type data_type) (cache_status (store w')) = Some cs /\
    CacheStatus.failed_attempts cs = Some 0 /\
    CacheStatus.api_status cs = Some "active"%string /\
    CacheStatus.is_stale cs = Some false /\
    CacheStatus.total_records cs = Some success_count /\
    CacheStatus.last_api_fetch cs = Some (clock env (ticks w)) /\
    CacheStatus.last_successful_fetch cs = Some (clock env (S (ticks w))).
Proof.
  intros Hs Hpos Hc w'.
  destruct (update_cache_status_success env data_type success_count total_count
              w Hs Hpos Hc) as [H _].
  eexists. split; [exact H|]. cbn. repeat split.
Qed.

Lemma success_marks_source_active_witness :
  session initial_world = store initial_world /\
  5 > 0 /\
  commit_fails flaky_env (commits initial_world) = false /\
  exists cs,
    find (has_data_type "district_data")
      (cache_status
         (store (snd (_update_cache_status flaky_env "district_data" 5 7
                        initial_world)))) = Some cs /\
    CacheStatus.failed_attempts cs = Some 0 /\
    CacheStatus.api_status cs = Some "active"%string.
Proof.
  repeat (split; [reflexivity|]).
  destruct (success_marks_source_active flaky_env "district_data" 5 7
              initial_world eq_refl eq_refl eq_refl)
    as [cs [H1 [H2 [H3 _]]]].
  exists cs. repeat split; assumption.
Defined.

(** A refresh without success on a tracked data type adds one to its failure
    counter and keeps the time of the last success; from the third failure in
    a row on the source is marked down and the data stale, before that status
    and stale flag stay as they were. *)
Theorem failure_counts_then_escalates
    (env : Env) (data_type : string) (total_count : Z) (w : World)
    (cs : CacheStatus.t) (n : Z) :
  session w = store w ->
  find (has_data_type data_type) (cache_status (store w)) = Some cs ->
  CacheStatus.failed_attempts cs = Some n ->
  commit_fails env (commits w) = false ->
  let w' := snd (_update_cache_status env data_type 0 total_count w) in
  exists cs',
    find (has_data_type data_type) (cache_status (store w')) = Some cs' /\
    CacheStatus.failed_attempts cs' = Some (n + 1) /\
    CacheStatus.last_successful_fetch cs' = CacheStatus.last_successful_fetch cs /\
    (n + 1 >= 3 ->
     CacheStatus.api_status cs' = Some "down"%string /\
     CacheStatus.is_stale cs' = Some true) /\
    (n + 1 < 3 ->
     CacheStatus.api_status cs' = CacheStatus.api_status cs /\
     CacheStatus.is_stale cs' = CacheStatus.is_stale cs).
Proof.
  intros Hs Hf Hn Hc w'.
  destruct (update_cache_status_tracked env data_type 0 total_count w cs n
              Hs Hf Hn Hc) as [H _].
  cbn [Z.gtb Z.compare] in H. eexists. split; [exact H|].
  unfold after_failure. cbn.
  split; [reflexivity|]. split; [reflexivity|].
  split; intros Hcmp.
  - replace (n + 1 >=? 3) with true by (symmetry; apply Z.geb_le; lia). auto.
  - replace (n + 1 >=? 3) with false
      by (symmetry; rewrite Z.geb_leb; apply Z.leb_gt; lia).
    auto.
Qed.

Lemma failure_counts_then_escalates_witness :
  session active_world = store active_world /\
  commit_fails flaky_env (commits active_world) = false /\
  exists cs cs',
    find (has_data_type "district_data") (cache_status (store active_world))
      = Some cs /\
    CacheStatus.failed_attempts cs = Some 0 /\
    find (has_data_type "district_data")
      (cache_status
         (store (snd (_update_cache_status flaky_env "district_data" 0 7
                        active_world)))) = Some cs' /\
    CacheStatus.failed_attempts cs' = Some 1 /\
    CacheStatus.api_status cs' = Some "active"%string.
Proof.
  split; [reflexivity|]. split; [reflexivity|].
  eexists. 
  assert (Hf : find (has_data_type "district_data")
                 (cache_status (store active_world))
               = Some (after_success (CacheStatus.new "district_data") 5
                         (clock flaky_env 0) (clock flaky_env 1)
                         (clock flaky_env 2)))
    by reflexivity.
  destruct (failure_counts_then_escalates flaky_env "district_data" 7
              active_world _ 0 eq_refl Hf eq_refl eq_refl)
    as [cs' [H1 [H2 [_ [_ H3]]]]].
  exists cs'. split; [exact Hf|]. split; [reflexivity|].
  split; [exact H1|]. split; [exact H2|].
  destruct H3 as [H3 _]; [reflexivity | exact H3].
Defined.

(** ** The health report *)

Lemma get_cache_status_spec env w :
  get_cache_status env w =
  (Ret (Report
          (StatusReport.mk
             (fold_left
                (fun acc s =>
                   dict_set (CacheStatus.data_type s) (status_entry s) acc)
                (cache_status (session w)) [])
             (overall_of (cache_status (session w)))
             (clock env (ticks w))
             (fold_left
                (fun acc s =>
                   dict_set (CacheStatus.data_type s) (CacheStatus.api_status s)
                     acc)
                (cache_status (session w)) []))),
   tick w).
Proof.
  unfold get_cache_status, overall_of. mrun.
  destruct (existsb is_down (cache_status (session w)));
    destruct (existsb (fun s => truthy (CacheStatus.is_stale s))
                (cache_status (session w)));
    reflexivity.
Qed.

(** The report's overall status: critical as soon as one data type is down,
    whatever the stale flags; degraded when none is down and one is stale;
    healthy otherwise.  The report is always produced and nothing is
    written. *)
Theorem overall_status_priorities (env : Env) (w : World) :
  exists r,
    fst (get_cache_status env w) = Ret (Report r) /\
    store (snd (get_cache_status env w)) = store w /\
    let rows := cache_status (session w) in
    (StatusReport.overall_status r = "critical"%string <->
     exists s, In s rows /\ CacheStatus.api_status s = Some "down"%string) /\
    (StatusReport.overall_status r = "degraded"%string <->
     (forall s, In s rows -> CacheStatus.api_status s <> Some "down"%string) /\
     exists s, In s rows /\ CacheStatus.is_stale s = Some true) /\
    (StatusReport.overall_status r = "healthy"%string <->
     forall s, In s rows ->
       CacheStatus.api_status s <> Some "down"%string /\
       CacheStatus.is_stale s <> Some true).
Proof.
  rewrite get_cache_status_spec. eexists. split; [reflexivity|].
  split; [reflexivity|]. cbv zeta. cbn [StatusReport.overall_status].
  set (rows := cache_status (session w)).
  assert (Hdown : forall s, is_down s = true <->
                            CacheStatus.api_status s = Some "down"%string).
  { intros s. unfold is_down. destruct (CacheStatus.api_status s) as [a|].
    - rewrite String.eqb_eq. split; [intros ->; reflexivity|].
      intros [= ->]. reflexivity.
    - split; discriminate. }
  assert (Hstale : forall s, truthy (CacheStatus.is_stale s) = true <->
                             CacheStatus.is_stale s = Some true).
  { intros s. destruct (CacheStatus.is_stale s) as [[|]|]; cbn;
      split; congruence. }
  unfold overall_of.
  destruct (existsb is_down rows) eqn:Ed; cbv iota.
  - apply existsb_exists in Ed. destruct Ed as [s [Hin Hd]].
    apply Hdown in Hd.
    split; [split; [intros _; exists s; auto | reflexivity]|].
    split; split; try (intros H; discriminate H).
    + intros [Hno _]. exfalso. exact (Hno s Hin Hd).
    + intros Hno. exfalso. exact (proj1 (Hno s Hin) Hd).
  - assert (Hnone : forall s, In s rows ->
                      CacheStatus.api_status s <> Some "down"%string).
    { intros s Hin Hd. apply Hdown in Hd.
      assert (existsb is_down rows = true)
        by (apply existsb_exists; exists s; auto).
      congruence. }
    split.
    { split; [destruct (existsb (fun s => truthy (CacheStatus.is_stale s)) rows);
             intros H; discriminate H|].
      intros [s [Hin Hd]]. exfalso. exact (Hnone s Hin Hd). }
    destruct (existsb (fun s => truthy (CacheStatus.is_stale s)) rows) eqn:Es;
      cbv iota.
    + apply existsb_exists in Es. destruct Es as [s [Hin Hst]].
      apply Hstale in Hst.
      split; split; try (intros H; discriminate H).
      * intros _. split; [exact Hnone | exists s; auto].
      * reflexivity.
      * intros Hall. exfalso. exact (proj2 (Hall s Hin) Hst).
    + assert (Hfresh : forall s, In s rows -> CacheStatus.is_stale s <> Some true).
      { intros s Hin Hst. apply Hstale in Hst.
        assert (existsb (fun s => truthy (CacheStatus.is_stale s)) rows = true)
          by (apply existsb_exists; exists s; auto).
        congruence. }
      split; split; try (intros H; discriminate H).
      * intros [_ [s [Hin Hst]]]. exfalso. exact (Hfresh s Hin Hst).
      * intros _ s Hin. split; [exact (Hnone s Hin) | exact (Hfresh s Hin)].
      * reflexivity.
Qed.






(** Escalation, end to end: three refreshes without success in a row, on a
    data type whose counter stood at zero, leave it down, stale and with a
    counter of three, and the health report then says critical. *)
Theorem three_failures_reported_critical
    (env : Env) (data_type : string) (total_count : Z) (w : World)
    (cs : CacheStatus.t) :
  session w = store w ->
  find (has_data_type data_type) (cache_status (store w)) = Some cs ->
  CacheStatus.failed_attempts cs = Some 0 ->
  commit_fails env (commits w) = false ->
  commit_fails env (S (commits w)) = false ->
  commit_fails env (S (S (commits w))) = false ->
  let w1 := snd (_update_cache_status env data_type 0 total_count w) in
  let w2 := snd (_update_cache_status env data_type 0 total_count w1) in
  let w3 := snd (_update_cache_status env data_type 0 total_count w2) in
  (exists cs3,
     find (has_data_type data_type) (cache_status (store w3)) = Some cs3 /\
     CacheStatus.failed_attempts cs3 = Some 3 /\
     CacheStatus.api_status cs3 = Some "down"%string /\
     CacheStatus.is_stale cs3 = Some true) /\
  exists r,
    fst (get_cache_status env w3) = Ret (Report r) /\
    StatusReport.overall_status r = "critical"%string.
Proof.
  intros Hs Hf Hn Hc1 Hc2 Hc3 w1 w2 w3.
  destruct (three_failures_mark_down env data_type total_count w cs
              Hs Hf Hn Hc1 Hc2 Hc3) as [cs3 [H1 [H2 [H3 H4]]]].
  fold w1 w2 w3 in H1.
  split; [exists cs3; auto|].
  assert (Hs1 : session w1 = store w1)
    by (apply update_cache_status_frame; exact Hs).
  assert (Hs2 : session w2 = store w2)
    by (apply update_cache_status_frame; exact Hs1).
  assert (Hs3 : session w3 = store w3)
    by (apply update_cache_status_frame; exact Hs2).
  rewrite get_cache_status_spec. eexists. split; [reflexivity|].
  cbn [StatusReport.overall_status]. unfold overall_of. rewrite Hs3.
  replace (existsb is_down (cache_status (store w3))) with true; [reflexivity|].
  symmetry. apply existsb_exists. exists cs3.
  apply find_some in H1. split; [apply H1|].
  unfold is_down. rewrite H3. reflexivity.
Qed.

Lemma three_failures_reported_critical_witness :
  session active_world = store active_world /\
  exists r,
    fst (get_cache_status flaky_env
           (snd (_update_cache_status flaky_env "district_data" 0 7
                   (snd (_update_cache_status flaky_env "district_data" 0 7
                           (snd (_update_cache_status flaky_env "district_data"
                                   0 7 active_world)))))))
    = Ret (Report r) /\
    StatusReport.overall_status r = "critical"%string.
Proof.
  split; [reflexivity|].
  assert (Hf : find (has_data_type "district_data")
                 (cache_status (store active_world))
               = Some (after_success (CacheStatus.new "district_data") 5
                         (clock flaky_env 0) (clock flaky_env 1)
                         (clock flaky_env 2)))
    by reflexivity.
  exact (proj2 (three_failures_reported_critical flaky_env "district_data" 7
                  active_world _ eq_refl Hf eq_refl eq_refl eq_refl eq_refl)).
Defined.

(** A health update that cannot commit is rolled back and swallowed: it
    returns normally and the store is as before. *)
Theorem health_update_failure_is_rolled_back
    (env : Env) (data_type : string) (success_count total_count : Z) (w : World) :
  session w = store w ->
  commit_fails env (commits w) = true ->
  let r := _update_cache_status env data_type success_count total_count w in
  fst r = Ret tt /\ store (snd r) = store w /\ session (snd r) = store w.
Proof.
  intros Hs Hc r. subst r.
  rewrite update_cache_status_spec by exact Hs. cbv zeta.
  unfold finish. rewrite Hc.
  destruct (find (has_data_type data_type) (cache_status (store w))) as [cs|];
    destruct (success_count >? 0);
    try (destruct (CacheStatus.failed_attempts cs)); cbn; auto.
Qed.

Lemma health_update_failure_is_rolled_back_witness :
  session active_world = store active_world /\
  commit_fails readonly_env (commits active_world) = true /\
  store (snd (_update_cache_status readonly_env "district_data" 0 7 active_world))
  = store active_world.
Proof.
  split; [reflexivity|]. split; [reflexivity|].
  apply (health_update_failure_is_rolled_back readonly_env "district_data" 0 7
           active_world eq_refl eq_refl).
Defined.

(** A health update concerns one data type: the row of any other data type
    is the same afterwards. *)
Theorem health_update_keeps_other_types
    (env : Env) (data_type other : string) (success_count total_count : Z)
    (w : World) :
  session w = store w ->
  other <> data_type ->
  find (has_data_type other)
    (cache_status
       (store (snd (_update_cache_status env data_type success_count
                      total_count w))))
  = find (has_data_type other) (cache_status (store w)).
Proof.
  intros Hs Hne. rewrite update_cache_status_spec by exact Hs. cbv zeta.
  assert (Hq : forall x, has_data_type data_type x = true ->
                         has_data_type other x = false).
  { intros x H. unfold has_data_type in *. apply String.eqb_eq in H.
    rewrite H. apply String.eqb_neq. congruence. }
  assert (Hnew : has_data_type other (CacheStatus.new data_type) = false)
    by (apply Hq; unfold has_data_type; cbn; apply String.eqb_refl).
  unfold finish.
  destruct (find (has_data_type data_type) (cache_status (store w)))
    as [cs|] eqn:Hf.
  - assert (Hcs : has_data_type data_type cs = true)
      by (apply find_some in Hf; apply Hf).
    destruct (success_count >? 0).
    + destruct (commit_fails env (commits w)); cbn; [reflexivity|].
      apply find_update_first_other; [exact Hq|]. apply Hq.
      unfold has_data_type in *. exact Hcs.
    + destruct (CacheStatus.failed_attempts cs) as [n|]; [|reflexivity].
      destruct (commit_fails env (commits w)); cbn; [reflexivity|].
      apply find_update_first_other; [exact Hq|]. apply Hq.
      unfold has_data_type in *. exact Hcs.
  - destruct (success_count >? 0); [|reflexivity].
    destruct (commit_fails env (commits w)); cbn; [reflexivity|].
    rewrite find_update_first_other; [|exact Hq|].
    + apply find_snoc_other. exact Hnew.
    + apply Hq. unfold has_data_type. cbn. apply String.eqb_refl.
Qed.

Lemma health_update_keeps_other_types_witness :
  session active_world = store active_world /\
  find (has_data_type "district_data")
    (cache_status
       (store (snd (_update_cache_status flaky_env "location_data" 3 3
                      active_world))))
  = find (has_data_type "district_data") (cache_status (store active_world)).
Proof.
  split; [reflexivity|].
  apply (health_update_keeps_other_types flaky_env "location_data"
           "district_data" 3 3 active_world eq_refl).
  intros H. discriminate H.
Defined.

(** ** Bulk refresh when everything succeeds *)

Lemma find_upsert_keeps data c y now rows c' y' :
  keyed data c y ->
  find (same_key c' y') rows <> None ->
  find (same_key c' y') (upsert data c y now rows) <> None.
Proof.
  intros Hk H.
  destruct (string_dec c' c) as [->|Hc]; [destruct (Z.eq_dec y' y) as [->|Hy]|].
  - rewrite find_upsert by exact Hk. discriminate.
  - rewrite find_upsert_other; [exact H | exact Hk | congruence].
  - rewrite find_upsert_other; [exact H | exact Hk | congruence].
Qed.

Lemma refresh_all_data_unfold env w :
  session w = store w ->
  refresh_all_data env w =
  let codes :=
    nodup string_dec (map DistrictData.district_code (district_data (store w))) in
  let w0 := mkWorld (store w) (store w) (S (ticks w)) (commits w) (api_calls w) in
  match refresh_each env codes (year_of (clock env (ticks w))) 0 w0 with
  | (Ret m, w1) =>
      _update_cache_status env "district_data" m (Z.of_nat (length codes)) w1
  | (Raise e, w1) => (Raise e, w1)
  end.
Proof.
  intros Hs.
  unfold refresh_all_data, try_except, bind, get_session, datetime_now.
  rewrite Hs. cbv zeta.
  destruct (refresh_each env _ _ 0 _) as [[m|e] w1]; [|reflexivity].
  match goal with
  | |- context [_update_cache_status env ?dt ?m ?n w1] =>
      pose proof (update_cache_status_returns env dt m n w1) as R;
      destruct (_update_cache_status env dt m n w1) as [o w2]
  end.
  cbn [fst] in R. subst o. reflexivity.
Qed.

Section AllSucceed.

Variable env : Env.
Hypothesis source_answers : forall k, source env k <> None.
Hypothesis commits_succeed : forall k, commit_fails env k = false.

Lemma refresh_each_all_succeed district_codes current_year :
  forall success_count w,
  session w = store w ->
  let r := refresh_each env district_codes current_year success_count w in
  fst r = Ret (success_count + Z.of_nat (length district_codes)) /\
  session (snd r) = store (snd r) /\
  commits (snd r) = (length district_codes + commits w)%nat /\
  (forall c y, find (same_key c y) (district_data (store w)) <> None ->
               find (same_key c y) (district_data (store (snd r))) <> None) /\
  (forall c, In c district_codes ->
             find (same_key c current_year) (district_data (store (snd r)))
             <> None).
Proof.
  induction district_codes as [|code rest IH]; intros n w Hs.
  - cbn. repeat split; auto. f_equal. lia.
  - cbv zeta. rewrite refresh_each_step by exact Hs. cbv zeta.
    destruct (source env (length (api_calls w))) as [draws|] eqn:Hsrc;
      [|exfalso; exact (source_answers _ Hsrc)].
    rewrite commits_succeed.
    set (data := _generate_sample_district_data code current_year draws).
    set (rows' := upsert data code current_year (clock env (ticks w))
                    (district_data (store w))).
    match goal with
    | |- context [refresh_each env rest current_year ?m ?w0] =>
        destruct (IH m w0 eq_refl) as [H1 [H2 [H3 [H4 H5]]]]
    end.
    cbn [store commits district_data with_district_data] in H3, H4.
    split; [rewrite H1; f_equal; cbn [length]; lia|].
    split; [exact H2|].
    split; [rewrite H3; cbn [length]; lia|].
    split.
    + intros c y Hfound. apply H4.
      apply find_upsert_keeps; [apply sample_keyed | exact Hfound].
    + intros c [<-|Hin]; [|exact (H5 c Hin)].
      apply H4. unfold rows'. rewrite find_upsert by apply sample_keyed.
      discriminate.
Qed.

(** When the source answers and the store accepts every write, a bulk
    refresh leaves a Record of the current year for every district that had
    a Record of any year, keeps every Record it found, and records a healthy
    source with the number of districts refreshed. *)
Theorem refresh_covers_current_year (w : World) :
  session w = store w ->
  district_data (store w) <> [] ->
  let cy := year_of (clock env (ticks w)) in
  let codes :=
    nodup string_dec (map DistrictData.district_code (district_data (store w))) in
  let w' := snd (refresh_all_data env w) in
  (forall r, In r (district_data (store w)) ->
     find (same_key (DistrictData.district_code r) cy) (district_data (store w'))
     <> None /\
     find (same_key (DistrictData.district_code r) (DistrictData.year r))
       (district_data (store w')) <> None) /\
  exists cs,
    find (has_data_type "district_data") (cache_status (store w')) = Some cs /\
    CacheStatus.api_status cs = Some "active"%string /\
    CacheStatus.failed_attempts cs = Some 0 /\
    CacheStatus.total_records cs = Some (Z.of_nat (length codes)).
Proof.
  intros Hs Hne cy codes w'. subst w'.
  rewrite refresh_all_data_unfold by exact Hs. cbv zeta.
  fold codes. fold cy.
  set (w0 := mkWorld (store w) (store w) (S (ticks w)) (commits w) (api_calls w)).
  destruct (refresh_each_all_succeed codes cy 0 w0 eq_refl)
    as [H1 [H2 [_ [H4 H5]]]].
  destruct (refresh_each env codes cy 0 w0) as [o w1].
  cbn [fst snd] in *. subst o. cbn [Z.add] in *.
  assert (Hpos : Z.of_nat (length codes) > 0).
  { destruct (district_data (store w)) as [|r0 rows] eqn:E; [contradiction|].
    assert (Hin : In (DistrictData.district_code r0) codes)
      by (apply nodup_In; left; reflexivity).
    destruct codes; [contradiction|]. cbn [length]. lia. }
  destruct (update_cache_status_frame env "district_data"
              (Z.of_nat (length codes)) (Z.of_nat (length codes)) w1 H2)
    as [_ [F2 _]].
  split.
  - intros r Hin. rewrite F2. split.
    + apply H5. apply nodup_In. apply in_map. exact Hin.
    + apply H4. subst w0. cbn [store].
      destruct (find _ _) eqn:Hf; [discriminate|].
      apply (find_none _ _ Hf) in Hin.
      assert (same_key (DistrictData.district_code r) (DistrictData.year r) r
              = true) by (apply same_key_true; reflexivity).
      congruence.
  - destruct (update_cache_status_success env "district_data"
                (Z.of_nat (length codes)) (Z.of_nat (length codes)) w1
                H2 Hpos (commits_succeed _)) as [Hf _].
    eexists. split; [exact Hf|]. cbn. auto.
Qed.

End AllSucceed.

Lemma refresh_covers_current_year_witness :
  session one_record_world = store one_record_world /\
  district_data (store one_record_world) <> [] /\
  find (same_key "AP001" 2026)
    (district_data (store (snd (refresh_all_data reliable_env one_record_world))))
  <> None /\
  find (same_key "AP001" 2024)
    (district_data (store (snd (refresh_all_data reliable_env one_record_world))))
  <> None.
Proof.
  split; [reflexivity|].
  assert (Hne : district_data (store one_record_world) <> [])
    by (vm_compute; discriminate).
  split; [exact Hne|].
  destruct (refresh_covers_current_year reliable_env
              (fun k => ltac:(discriminate)) (fun k => eq_refl)
              one_record_world eq_refl Hne) as [H _].
  apply (H (saved_record
              (_generate_sample_district_data "AP001" 2024 example_draws)
              "AP001" 2024 noon [])).
  left. reflexivity.
Defined.

(** ** The retry loop of the HTTP client *)

Lemma backoff_step retry_delay attempt k rest :
  backoff retry_delay (S attempt) k
    ++ retry_delay * (Z.of_nat attempt + 1) :: rest
  = backoff retry_delay attempt (S k) ++ rest.
Proof.
  unfold backoff. cbn [seq map rev]. rewrite <- app_assoc. reflexivity.
Qed.

Section Retry.

Context {A : Type}.
Variable http : nat -> Attempt A.
Variable n : nat.
Variable delay : Z.

(** The first outcome that is not a [RequestException] decides the call. *)
Lemma attempts_from_decided k :
  forall attempt remaining wire,
  (attempt + remaining = n)%nat ->
  (k < remaining)%nat ->
  (forall j, (j < k)%nat -> http (requests_sent wire + j) = RequestException) ->
  http (requests_sent wire + k) <> RequestException ->
  attempts_from http n delay attempt remaining wire
  = (match http (requests_sent wire + k) with
     | Answered data => Some data
     | _ => None
     end,
     mkWire (requests_sent wire + k + 1) (backoff delay attempt k ++ slept wire)).
Proof.
  induction k as [|k IH]; intros attempt remaining wire Hn Hk Hfail Hdec;
    (destruct remaining as [|remaining]; [lia|]); cbn [attempts_from].
  - rewrite Nat.add_0_r in *.
    destruct (http (requests_sent wire)) eqn:E; try contradiction;
      cbn [backoff seq map rev app]; f_equal; f_equal; lia.
  - pose proof (Hfail 0%nat ltac:(lia)) as H0. rewrite Nat.add_0_r in H0.
    rewrite H0.
    replace (attempt <? n - 1)%nat with true
      by (symmetry; apply Nat.ltb_lt; lia).
    rewrite (IH (S attempt) remaining); cbn [requests_sent slept].
    + replace (S (requests_sent wire) + k)%nat
        with (requests_sent wire + S k)%nat by lia.
      rewrite backoff_step. f_equal; f_equal; lia.
    + lia.
    + lia.
    + intros j Hj.
      replace (S (requests_sent wire) + j)%nat
        with (requests_sent wire + S j)%nat by lia.
      apply Hfail. lia.
    + replace (S (requests_sent wire) + k)%nat
        with (requests_sent wire + S k)%nat by lia.
      exact Hdec.
Qed.

(** When every attempt of the budget fails the loop gives up without a last
    sleep. *)
Lemma attempts_from_exhausted :
  forall remaining attempt wire,
  (attempt + remaining = n)%nat ->
  (0 < remaining)%nat ->
  (forall j, (j < remaining)%nat ->
             http (requests_sent wire + j) = RequestException) ->
  attempts_from http n delay attempt remaining wire
  = (None,
     mkWire (requests_sent wire + remaining)
       (backoff delay attempt (remaining - 1) ++ slept wire)).
Proof.
  induction remaining as [|remaining IH]; intros attempt wire Hn Hpos Hfail;
    [lia|].
  cbn [attempts_from].
  pose proof (Hfail 0%nat ltac:(lia)) as H0. rewrite Nat.add_0_r in H0.
  rewrite H0.
  destruct remaining as [|remaining'].
  - replace (attempt <? n - 1)%nat with false
      by (symmetry; apply Nat.ltb_ge; lia).
    cbn [backoff seq map rev app Nat.sub]. f_equal; f_equal; lia.
  - replace (attempt <? n - 1)%nat with true
      by (symmetry; apply Nat.ltb_lt; lia).
    rewrite (IH (S attempt)); cbn [requests_sent slept].
    + replace (S remaining' - 1)%nat with remaining' by lia.
      replace (S (S remaining') - 1)%nat with (S remaining') by lia.
      rewrite backoff_step. f_equal; f_equal; lia.
    + lia.
    + lia.
    + intros j Hj.
      replace (S (requests_sent wire) + j)%nat
        with (requests_sent wire + S j)%nat by lia.
      apply Hfail. lia.
Qed.

Lemma attempts_from_bounds :
  forall remaining attempt wire,
  let r := attempts_from http n delay attempt remaining wire in
  (requests_sent wire <= requests_sent (snd r) <= requests_sent wire + remaining)%nat /\
  (forall data, fst r = Some data ->
     exists k, (k < remaining)%nat /\
               http (requests_sent wire + k) = Answered data).
Proof.
  induction remaining as [|remaining IH]; intros attempt wire; cbn [attempts_from].
  - cbn. split; [lia | discriminate].
  - destruct (http (requests_sent wire)) as [d| |] eqn:E.
    + cbn. split; [lia|]. intros data [= <-]. exists 0%nat.
      rewrite Nat.add_0_r. split; [lia | exact E].
    + destruct (attempt <? n - 1)%nat.
      * match goal with
        | |- context [attempts_from http n delay ?a remaining ?w0] =>
            pose proof (IH a w0) as H; cbv zeta in H;
            set (r := attempts_from http n delay a remaining w0) in *;
            destruct H as [H1 H2]
        end.
        cbn [requests_sent] in H1, H2. cbv zeta. split; [lia|].
        intros data Hd. destruct (H2 data Hd) as [k [Hk Hk']].
        exists (S k). split; [lia|].
        replace (requests_sent wire + S k)%nat
          with (S (requests_sent wire) + k)%nat by lia.
        exact Hk'.
      * cbn. split; [lia | discriminate].
    + cbn. split; [lia | discriminate].
Qed.

End Retry.

(** The first request that is answered ends the call with its data; before
    it, each failed attempt is followed by a sleep of the base delay times
    the attempt number. *)
Theorem first_answer_ends_the_retries
    {A : Type} (http : nat -> Attempt A) (n : nat) (delay : Z) (wire : Wire)
    (k : nat) (data : A) :
  (k < n)%nat ->
  (forall j, (j < k)%nat -> http (requests_sent wire + j)%nat = RequestException) ->
  http (requests_sent wire + k)%nat = Answered data ->
  _make_api_request http n delay wire
  = (Some data,
     mkWire (requests_sent wire + k + 1)%nat (backoff delay 0 k ++ slept wire)).
Proof.
  intros Hk Hfail Hans. unfold _make_api_request.
  rewrite (attempts_from_decided http n delay k 0 n wire eq_refl Hk Hfail);
    rewrite Hans; [reflexivity | discriminate].
Qed.

Lemma first_answer_ends_the_retries_witness :
  _make_api_request
    (fun k => match k with
              | 2%nat => Answered 7
              | _ => RequestException
              end)
    retry_attempts retry_delay (mkWire 0 [])
  = (Some 7, mkWire 3 [4; 2]).
Proof.
  apply (first_answer_ends_the_retries
           (fun k => match k with
                     | 2%nat => Answered 7
                     | _ => RequestException
                     end)
           retry_attempts retry_delay (mkWire 0 []) 2 7).
  - unfold retry_attempts. lia.
  - intros [|[|j]] Hj; [reflexivity | reflexivity | lia].
  - reflexivity.
Defined.

(** When every attempt of the budget fails with a request error the call
    returns [None] after exactly the budgeted number of requests, having
    slept after each failure but the last. *)
Theorem exhausted_retries_give_none
    {A : Type} (http : nat -> Attempt A) (n : nat) (delay : Z) (wire : Wire) :
  (0 < n)%nat ->
  (forall j, (j < n)%nat -> http (requests_sent wire + j)%nat = RequestException) ->
  _make_api_request http n delay wire
  = (None,
     mkWire (requests_sent wire + n)%nat (backoff delay 0 (n - 1) ++ slept wire)).
Proof.
  intros Hn Hfail. unfold _make_api_request.
  exact (attempts_from_exhausted http n delay n 0 wire eq_refl Hn Hfail).
Qed.

Lemma exhausted_retries_give_none_witness :
  _make_api_request (fun _ => @RequestException Z) retry_attempts retry_delay
    (mkWire 0 [])
  = (None, mkWire 3 [4; 2]).
Proof.
  apply (exhausted_retries_give_none (fun _ => @RequestException Z)
           retry_attempts retry_delay (mkWire 0 [])).
  - unfold retry_attempts. lia.
  - intros j _. reflexivity.
Defined.

(** An error that is not a request error is not retried: the call returns
    [None] at once, without sleeping after it. *)
Theorem unexpected_error_is_not_retried
    {A : Type} (http : nat -> Attempt A) (n : nat) (delay : Z) (wire : Wire)
    (k : nat) :
  (k < n)%nat ->
  (forall j, (j < k)%nat -> http (requests_sent wire + j)%nat = RequestException) ->
  http (requests_sent wire + k)%nat = OtherException ->
  _make_api_request http n delay wire
  = (None,
     mkWire (requests_sent wire + k + 1)%nat (backoff delay 0 k ++ slept wire)).
Proof.
  intros Hk Hfail Hother. unfold _make_api_request.
  rewrite (attempts_from_decided http n delay k 0 n wire eq_refl Hk Hfail);
    rewrite Hother; [reflexivity | discriminate].
Qed.

Lemma unexpected_error_is_not_retried_witness :
  _make_api_request (fun _ => @OtherException Z) retry_attempts retry_delay
    (mkWire 0 [])
  = (None, mkWire 1 []).
Proof.
  apply (unexpected_error_is_not_retried (fun _ => @OtherException Z)
           retry_attempts retry_delay (mkWire 0 []) 0).
  - unfold retry_attempts. lia.
  - intros j Hj. lia.
  - reflexivity.
Defined.

(** Whatever the server does, a call sends at most the budgeted number of
    requests, and data it returns is the answer to one of them. *)
Theorem requests_stay_within_budget
    {A : Type} (http : nat -> Attempt A) (n : nat) (delay : Z) (wire : Wire) :
  let r := _make_api_request http n delay wire in
  (requests_sent (snd r) <= requests_sent wire + n)%nat /\
  forall data, fst r = Some data ->
    exists k, (k < n)%nat /\ http (requests_sent wire + k)%nat = Answered data.
Proof.
  cbv zeta. unfold _make_api_request.
  destruct (attempts_from_bounds http n delay n 0 wire) as [H1 H2].
  split; [lia | exact H2].
Qed.

(** ** District comparison *)

Lemma get_district_data_returns env district_code year w :
  exists o, fst (get_district_data env district_code year w) = Ret o.
Proof.
  unfold get_district_data, try_except.
  match goal with
  | |- context [let (_, _) := ?c in _] => destruct c as [[o|e] w']
  end; eexists; reflexivity.
Qed.

Lemma dict_set_keys {V} k (v : V) d :
  forall c, In c (map fst (dict_set k v d)) <-> c = k \/ In c (map fst d).
Proof.
  induction d as [|[k' v'] d IH]; intros c; cbn [dict_set].
  - cbn. intuition.
  - destruct (String.eqb k' k) eqn:E.
    + apply String.eqb_eq in E. subst k'. cbn. intuition.
    + cbn [map fst In]. rewrite IH. intuition.
Qed.

Lemma dict_set_NoDup {V} k (v : V) d :
  NoDup (map fst d) -> NoDup (map fst (dict_set k v d)).
Proof.
  induction d as [|[k' v'] d IH]; intros Hn; cbn [dict_set].
  - cbn. constructor; [intros []|constructor].
  - cbn [map fst] in Hn. inversion Hn as [|? ? Hk Hd]; subst.
    destruct (String.eqb k' k) eqn:E.
    + apply String.eqb_eq in E. subst k'. cbn. constructor; assumption.
    + cbn [map fst]. constructor; [|apply IH; exact Hd].
      rewrite dict_set_keys. intros [H|H]; [|exact (Hk H)].
      apply String.eqb_neq in E. congruence.
Qed.

Lemma dict_set_length {V} k (v : V) d :
  (length d <= length (dict_set k v d) <= S (length d))%nat.
Proof.
  induction d as [|[k' v'] d IH]; cbn [dict_set]; [cbn; lia|].
  destruct (String.eqb k' k); cbn [length]; lia.
Qed.

Lemma read_each_spec env district_codes current_year :
  forall dd ds w,
  dict_matches dd ds ->
  exists dd' ds',
    fst (read_each env district_codes current_year dd ds w) = Ret (dd', ds') /\
    dict_matches dd' ds' /\
    (length ds <= length ds' <= length ds + length district_codes)%nat /\
    (forall c, In c (map ComparedDistrict.district_code ds') ->
               In c (map ComparedDistrict.district_code ds) \/
               In c district_codes).
Proof.
  induction district_codes as [|code rest IH]; intros dd ds w Hm.
  - exists dd, ds. cbn. repeat split; try apply Hm; try lia; auto.
  - cbn [read_each]. unfold bind.
    destruct (get_district_data_returns env code (Some current_year) w)
      as [o Ho].
    destruct (get_district_data env code (Some current_year) w) as [o' w'].
    cbn [fst] in Ho. subst o'. destruct o as [f|].
    + set (d1 := ComparedDistrict.mk code (Formatted.district_name f)
                   (Formatted.state_name f)).
      assert (Hm' : dict_matches (dict_set code f dd) (ds ++ [d1])).
      { destruct Hm as [Hn Hk]. split; [apply dict_set_NoDup; exact Hn|].
        intros c. rewrite dict_set_keys, map_app, in_app_iff, Hk. cbn.
        intuition. }
      destruct (IH (dict_set code f dd) (ds ++ [d1]) w' Hm')
        as [dd' [ds' [H1 [H2 [H3 H4]]]]].
      exists dd', ds'. split; [exact H1|]. split; [exact H2|].
      rewrite length_app in H3. cbn [length] in *. split; [lia|].
      intros c Hc. destruct (H4 c Hc) as [H|H]; [|right; right; exact H].
      rewrite map_app, in_app_iff in H. cbn in H.
      destruct H as [H|[H|[]]]; [left; exact H | right; left; exact H].
    + destruct (IH dd ds w' Hm) as [dd' [ds' [H1 [H2 [H3 H4]]]]].
      exists dd', ds'. split; [exact H1|]. split; [exact H2|].
      cbn [length]. split; [lia|].
      intros c Hc. destruct (H4 c Hc) as [H|H]; [left|right; right]; exact H.
Qed.

Lemma column_keys metric_name dd :
  map fst (column metric_name dd) = map fst dd.
Proof. unfold column. rewrite map_map. reflexivity. Qed.

(** The shape of a comparison: it never raises; the districts listed are
    requested ones, at most one entry per request; without any data the
    metrics and the summary are empty; otherwise there are the five metrics,
    each with one value per district listed. *)
Theorem comparison_shape
    (env : Env) (district_codes : list string) (year : option Z) (w : World) :
  exists c,
    fst (compare_districts env district_codes year w) = Ret c /\
    (length (Comparison.districts c) <= length district_codes)%nat /\
    (forall d, In d (Comparison.districts c) ->
               In (ComparedDistrict.district_code d) district_codes) /\
    (Comparison.districts c = [] ->
     Comparison.metrics c = [] /\ Comparison.summary c = None) /\
    (Comparison.districts c <> [] ->
     map ComparisonMetric.metric_name (Comparison.metrics c)
     = ["total_person_days"; "total_expenditure"; "active_workers";
        "average_days_per_household"; "employment_provided_percentage"]%string /\
     forall m, In m (Comparison.metrics c) ->
       NoDup (map fst (ComparisonMetric.values m)) /\
       forall code,
         In code (map fst (ComparisonMetric.values m)) <->
         In code (map ComparedDistrict.district_code (Comparison.districts c))).
Proof.
  unfold compare_districts, try_except, bind.
  rewrite current_year_of_spec. unfold datetime_now.
  set (cy := requested_year env year w).
  match goal with
  | |- context [read_each env district_codes cy [] [] ?w0] =>
      destruct (read_each_spec env district_codes cy [] [] w0)
        as [dd [ds [H1 [[Hn Hk] [H3 H4]]]]];
      [split; [constructor | intros c0; reflexivity]|];
      destruct (read_each env district_codes cy [] [] w0) as [o w1]
  end.
  cbn [fst] in H1. subst o. cbn [fst snd length] in *.
  assert (Hin : forall d, In d ds ->
                          In (ComparedDistrict.district_code d) district_codes).
  { intros d Hd. destruct (H4 (ComparedDistrict.district_code d)) as [[]|H];
      [apply in_map; exact Hd | exact H]. }
  destruct dd as [|kv dd].
  - eexists. split; [reflexivity|]. cbn.
    split; [lia|]. split; [exact Hin|]. split; [auto|].
    intros Hne. exfalso. destruct ds as [|d ds]; [apply Hne; reflexivity|].
    apply (proj2 (Hk (ComparedDistrict.district_code d))). left. reflexivity.
  - eexists. split; [reflexivity|]. cbn [Comparison.districts Comparison.metrics
      Comparison.summary].
    split; [lia|]. split; [exact Hin|]. split.
    + intros ->. exfalso. apply (proj1 (Hk (fst kv))). left. reflexivity.
    + intros _. split; [reflexivity|].
      intros m Hm. cbn [metrics_config map] in Hm.
      repeat (destruct Hm as [<-|Hm];
              [cbn [ComparisonMetric.values]; rewrite column_keys;
               split; [exact Hn | exact Hk]|]).
      destruct Hm.
Qed.

Lemma max_from_spec rest :
  forall best k,
  max_from best rest = Ret k ->
  exists kv,
    In kv (best :: rest) /\ fst kv = k /\
    forall kv' x y, In kv' (best :: rest) ->
                    snd kv' = Some x -> snd kv = Some y -> (x <= y)%Q.
Proof.
  induction rest as [|item rest IH]; intros best k H; cbn [max_from] in H.
  - injection H as <-. exists best. split; [left; reflexivity|].
    split; [reflexivity|]. intros kv' x y [<-|[]] Hx Hy.
    rewrite Hx in Hy. injection Hy as <-. apply Qle_refl.
  - unfold value_gt in H.
    destruct (snd item) as [x0|] eqn:Ei; [|discriminate].
    destruct (snd best) as [y0|] eqn:Eb; [|discriminate].
    destruct (x0 ?= y0)%Q eqn:Ec.
    + destruct (IH best k H) as [kv [Hin [Hk Hmax]]].
      exists kv. split; [destruct Hin; [left|right; right]; assumption|].
      split; [exact Hk|]. intros kv' x y [<-|[<-|Hr]] Hx Hy.
      * apply (Hmax best x y); [left; reflexivity | exact Hx | exact Hy].
      * rewrite Ei in Hx. injection Hx as <-.
        apply Qeq_alt in Ec. rewrite Ec.
        apply (Hmax best y0 y); [left; reflexivity | exact Eb | exact Hy].
      * apply (Hmax kv' x y); [right; exact Hr | exact Hx | exact Hy].
    + destruct (IH best k H) as [kv [Hin [Hk Hmax]]].
      exists kv. split; [destruct Hin; [left|right; right]; assumption|].
      split; [exact Hk|]. intros kv' x y [<-|[<-|Hr]] Hx Hy.
      * apply (Hmax best x y); [left; reflexivity | exact Hx | exact Hy].
      * rewrite Ei in Hx. injection Hx as <-.
        apply Qlt_alt in Ec. apply Qlt_le_weak in Ec.
        apply (Qle_trans _ y0); [exact Ec|].
        apply (Hmax best y0 y); [left; reflexivity | exact Eb | exact Hy].
      * apply (Hmax kv' x y); [right; exact Hr | exact Hx | exact Hy].
    + destruct (IH item k H) as [kv [Hin [Hk Hmax]]].
      exists kv. split; [right; exact Hin|].
      split; [exact Hk|]. intros kv' x y [<-|Hr] Hx Hy.
      * rewrite Eb in Hx. injection Hx as <-.
        apply Qgt_alt in Ec. apply Qlt_le_weak in Ec.
        apply (Qle_trans _ x0); [exact Ec|].
        apply (Hmax item x0 y); [left; reflexivity | exact Ei | exact Hy].
      * apply (Hmax kv' x y); [exact Hr | exact Hx | exact Hy].
Qed.

Lemma min_from_spec rest :
  forall best k,
  min_from best rest = Ret k ->
  exists kv,
    In kv (best :: rest) /\ fst kv = k /\
    forall kv' x y, In kv' (best :: rest) ->
                    snd kv' = Some x -> snd kv = Some y -> (y <= x)%Q.
Proof.
  induction rest as [|item rest IH]; intros best k H; cbn [min_from] in H.
  - injection H as <-. exists best. split; [left; reflexivity|].
    split; [reflexivity|]. intros kv' x y [<-|[]] Hx Hy.
    rewrite Hx in Hy. injection Hy as <-. apply Qle_refl.
  - unfold value_lt in H.
    destruct (snd item) as [x0|] eqn:Ei; [|discriminate].
    destruct (snd best) as [y0|] eqn:Eb; [|discriminate].
    destruct (x0 ?= y0)%Q eqn:Ec.
    + destruct (IH best k H) as [kv [Hin [Hk Hmin]]].
      exists kv. split; [destruct Hin; [left|right; right]; assumption|].
      split; [exact Hk|]. intros kv' x y [<-|[<-|Hr]] Hx Hy.
      * apply (Hmin best x y); [left; reflexivity | exact Hx | exact Hy].
      * rewrite Ei in Hx. injection Hx as <-.
        apply Qeq_alt in Ec. rewrite Ec.
        apply (Hmin best y0 y); [left; reflexivity | exact Eb | exact Hy].
      * apply (Hmin kv' x y); [right; exact Hr | exact Hx | exact Hy].
    + destruct (IH item k H) as [kv [Hin [Hk Hmin]]].
      exists kv. split; [right; exact Hin|].
      split; [exact Hk|]. intros kv' x y [<-|Hr] Hx Hy.
      * rewrite Eb in Hx. injection Hx as <-.
        apply Qlt_alt in Ec. apply Qlt_le_weak in Ec.
        apply (Qle_trans _ x0); [|exact Ec].
        apply (Hmin item x0 y); [left; reflexivity | exact Ei | exact Hy].
      * apply (Hmin kv' x y); [exact Hr | exact Hx | exact Hy].
    + destruct (IH best k H) as [kv [Hin [Hk Hmin]]].
      exists kv. split; [destruct Hin; [left|right; right]; assumption|].
      split; [exact Hk|]. intros kv' x y [<-|[<-|Hr]] Hx Hy.
      * apply (Hmin best x y); [left; reflexivity | exact Hx | exact Hy].
      * rewrite Ei in Hx. injection Hx as <-.
        apply Qgt_alt in Ec. apply Qlt_le_weak in Ec.
        apply (Qle_trans _ y0); [|exact Ec].
        apply (Hmin best y0 y); [left; reflexivity | exact Eb | exact Hy].
      * apply (Hmin kv' x y); [right; exact Hr | exact Hx | exact Hy].
Qed.

Lemma dict_lookup_in {V} k (v : V) d :
  NoDup (map fst d) -> In (k, v) d -> dict_lookup k d = Some v.
Proof.
  induction d as [|[k' v'] d IH]; intros Hn Hin; [contradiction|].
  cbn [map fst] in Hn. inversion Hn as [|? ? Hk Hd]; subst.
  cbn [dict_lookup]. destruct Hin as [[= -> ->]|Hin].
  - rewrite String.eqb_refl. reflexivity.
  - destruct (String.eqb k' k) eqn:E; [|apply IH; assumption].
    apply String.eqb_eq in E. subst k'. exfalso. apply Hk.
    apply (in_map fst) in Hin. exact Hin.
Qed.

(** The value the summary reports for the key [max_key]/[min_key] chose is
    the value of the entry chosen. *)
Lemma extreme_value code dd metric_name values e kv :
  values = column metric_name dd ->
  NoDup (map fst dd) ->
  In kv values -> fst kv = code ->
  extreme_of code dd values = Ret e ->
  Extreme.district_code e = code /\ Extreme.value e = snd kv.
Proof.
  intros -> Hn Hin Hk H. unfold extreme_of in H.
  destruct (dict_lookup code dd) as [data|]; [|discriminate].
  rewrite (dict_lookup_in code (snd kv) (column metric_name dd)) in H.
  - injection H as <-. cbn. auto.
  - rewrite column_keys. exact Hn.
  - rewrite <- Hk. destruct kv. exact Hin.
Qed.

(** The summary's extremes are extremes: no compared district has more
    person-days than the best employment district or fewer than the worst,
    and none has a higher expenditure than the highest-expenditure district;
    the count is the number of districts compared. *)
Theorem summary_reports_the_extremes
    (district_data : list (string * Formatted.t)) (s : Summary.t) :
  NoDup (map fst district_data) ->
  _generate_comparison_summary district_data = Some s ->
  Summary.total_districts_compared s = Z.of_nat (length district_data) /\
  In (Extreme.district_code (Summary.best_employment_district s))
    (map fst district_data) /\
  forall code f, In (code, f) district_data ->
    (forall x y,
       total_person_days (Formatted.metrics f) = Some x ->
       Extreme.value (Summary.best_employment_district s) = Some y ->
       (x <= y)%Q) /\
    (forall x y,
       total_person_days (Formatted.metrics f) = Some x ->
       Extreme.value (Summary.worst_employment_district s) = Some y ->
       (y <= x)%Q) /\
    (forall x y,
       total_expenditure (Formatted.metrics f) = Some x ->
       Extreme.value (Summary.highest_expenditure_district s) = Some y ->
       (x <= y)%Q).
Proof.
  intros Hn H.
  assert (Hne : exists c0 f0 dd0, district_data = (c0, f0) :: dd0).
  { destruct district_data as [|[c0 f0] dd0]; [discriminate H | eauto]. }
  destruct Hne as [c0 [f0 [dd0 Edd]]].
  assert (Hs : summary_of district_data = Ret s).
  { rewrite Edd in *. cbn [_generate_comparison_summary] in H.
    destruct (summary_of ((c0, f0) :: dd0)); [congruence | discriminate]. }
  clear H. unfold summary_of in Hs.
  set (emp := column "total_person_days" district_data) in *.
  set (expd := column "total_expenditure" district_data) in *.
  destruct (max_key emp) as [k1|] eqn:M1; [|discriminate].
  destruct (min_key emp) as [k2|] eqn:M2; [|discriminate].
  destruct (max_key expd) as [k3|] eqn:M3; [|discriminate].
  destruct (min_key expd) as [k4|] eqn:M4; [|discriminate].
  destruct (extreme_of k1 district_data emp) as [e1|] eqn:E1; [|discriminate].
  destruct (extreme_of k2 district_data emp) as [e2|] eqn:E2; [|discriminate].
  destruct (extreme_of k3 district_data expd) as [e3|] eqn:E3; [|discriminate].
  assert (Hs' : s = Summary.mk e1 e2 e3 (Z.of_nat (length district_data))
                      (Formatted.year f0)).
  { rewrite Edd in Hs. rewrite Edd. congruence. }
  clear Hs. subst s.
  cbn [Summary.total_districts_compared Summary.best_employment_district
       Summary.worst_employment_district Summary.highest_expenditure_district].
  assert (Hemp : exists b r, emp = b :: r)
    by (subst emp; rewrite Edd; cbn; eauto).
  assert (Hexp : exists b r, expd = b :: r)
    by (subst expd; rewrite Edd; cbn; eauto).
  destruct Hemp as [b1 [r1 Hemp]]. destruct Hexp as [b2 [r2 Hexp]].
  unfold max_key, min_key in M1, M2, M3. rewrite Hemp in M1, M2.
  rewrite Hexp in M3.
  destruct (max_from_spec _ _ _ M1) as [kv1 [I1 [K1 X1]]].
  destruct (min_from_spec _ _ _ M2) as [kv2 [I2 [K2 X2]]].
  destruct (max_from_spec _ _ _ M3) as [kv3 [I3 [K3 X3]]].
  rewrite <- Hemp in I1, I2, X1, X2. rewrite <- Hexp in I3, X3.
  destruct (extreme_value k1 district_data _ emp e1 kv1 eq_refl Hn I1 K1 E1)
    as [C1 V1].
  destruct (extreme_value k2 district_data _ emp e2 kv2 eq_refl Hn I2 K2 E2)
    as [C2 V2].
  destruct (extreme_value k3 district_data _ expd e3 kv3 eq_refl Hn I3 K3 E3)
    as [C3 V3].
  split; [reflexivity|]. split.
  - rewrite C1, <- K1, <- (column_keys "total_person_days").
    apply in_map. exact I1.
  - intros code f Hin.
    assert (Ie : In (code, total_person_days (Formatted.metrics f)) emp).
    { subst emp. unfold column. apply in_map_iff. exists (code, f).
      split; [reflexivity | exact Hin]. }
    assert (Ix : In (code, total_expenditure (Formatted.metrics f)) expd).
    { subst expd. unfold column. apply in_map_iff. exists (code, f).
      split; [reflexivity | exact Hin]. }
    split; [|split]; intros x y Hx Hy.
    + rewrite V1 in Hy. exact (X1 _ x y Ie Hx Hy).
    + rewrite V2 in Hy. exact (X2 _ x y Ie Hx Hy).
    + rewrite V3 in Hy. exact (X3 _ x y Ix Hx Hy).
Qed.

Lemma summary_reports_the_extremes_witness :
  NoDup (map fst compared_data) /\
  exists s,
    _generate_comparison_summary compared_data = Some s /\
    Summary.total_districts_compared s = 2 /\
    Extreme.district_code (Summary.best_employment_district s) = "AP001"%string /\
    Extreme.district_code (Summary.worst_employment_district s) = "AP002"%string.
Proof.
  assert (Hn : NoDup (map fst compared_data)).
  { cbn. constructor; [intros [H|[]]; discriminate H|].
    constructor; [intros []|constructor]. }
  split; [exact Hn|].
  eexists. split; [vm_compute; reflexivity|].
  split.
  - exact (proj1 (summary_reports_the_extremes compared_data _ Hn eq_refl)).
  - split; reflexivity.
Defined.

Lemma max_from_none rest :
  forall best,
  rest <> [] ->
  (exists kv, In kv (best :: rest) /\ snd kv = None) ->
  max_from best rest = Raise TypeError.
Proof.
  induction rest as [|item rest IH]; intros best Hne Hnone; [contradiction|].
  cbn [max_from]. unfold value_gt.
  destruct (snd item) as [x|] eqn:Ei; [|reflexivity].
  destruct (snd best) as [y|] eqn:Eb; [|reflexivity].
  destruct Hnone as [kv [Hin Hkv]].
  assert (Hrest : In kv rest).
  { destruct Hin as [<-|[<-|H]]; [congruence | congruence | exact H]. }
  assert (Hne' : rest <> []) by (intros ->; contradiction).
  destruct (match (x ?= y)%Q with Gt => true | _ => false end).
  - apply IH; [exact Hne'|]. exists kv. split; [right; exact Hrest | exact Hkv].
  - apply IH; [exact Hne'|]. exists kv. split; [right; exact Hrest | exact Hkv].
Qed.

(** With two or more districts compared, a missing person-days total in any
    one of them leaves the summary empty: the comparison of totals raises and
    the error is swallowed. *)
Theorem missing_total_empties_summary
    (district_data : list (string * Formatted.t)) (code : string)
    (f : Formatted.t) :
  (2 <= length district_data)%nat ->
  In (code, f) district_data ->
  total_person_days (Formatted.metrics f) = None ->
  _generate_comparison_summary district_data = None.
Proof.
  intros Hlen Hin Hnone.
  destruct district_data as [|first [|second rest]]; cbn [length] in Hlen;
    try lia.
  cbn [_generate_comparison_summary]. unfold summary_of.
  set (dd := first :: second :: rest) in *.
  assert (M : max_key (column "total_person_days" dd) = Raise TypeError).
  { unfold max_key, dd. cbn [column map]. apply max_from_none; [discriminate|].
    exists (code, total_person_days (Formatted.metrics f)).
    split; [|exact Hnone].
    change (In (code, data_get "total_person_days" f)
              (column "total_person_days" (first :: second :: rest))).
    unfold column. apply in_map_iff. exists (code, f).
    split; [reflexivity | exact Hin]. }
  rewrite M. reflexivity.
Qed.

Lemma missing_total_empties_summary_witness :
  _generate_comparison_summary
    [("AP001"%string, _format_district_data (example_record 2024 1000 50));
     ("AP002"%string, _format_district_data (partial_record 2024))]
  = None.
Proof.
  apply (missing_total_empties_summary _ "AP002"
           (_format_district_data (partial_record 2024))).
  - cbn. lia.
  - right. left. reflexivity.
  - reflexivity.
Defined.

Lemma get_district_data_api_length env district_code year w :
  session w = store w ->
  (length (api_calls (snd (get_district_data env district_code year w)))
   <= S (length (api_calls w)))%nat.
Proof.
  intros Hs. rewrite get_district_data_cases by exact Hs.
  destruct (goes_to_source env district_code year w) as [w2|] eqn:G.
  - destruct (goes_to_source_frame _ _ _ _ _ G) as [_ [_ [_ F4]]].
    unfold read_through.
    destruct (source env (length (api_calls w2))) as [draws|];
      [destruct (commit_fails env (commits w2))|];
      cbn [snd api_calls length]; rewrite F4; lia.
  - cbn [snd]. destruct (after_year_frame year w) as [_ [_ [_ F4]]].
    cbn [tick api_calls]. rewrite F4. lia.
Qed.

Lemma read_each_stable (P : list DistrictData.t -> Prop) env
    (P_upsert : forall district_code year draws now rows,
        P rows ->
        P (upsert (_generate_sample_district_data district_code year draws)
             district_code year now rows))
    district_codes current_year :
  forall dd ds w,
  stable P w ->
  let w' := snd (read_each env district_codes current_year dd ds w) in
  stable P w' /\
  (length (api_calls w') <= length district_codes + length (api_calls w))%nat.
Proof.
  induction district_codes as [|code rest IH]; intros dd ds w Hst.
  - cbn. split; [exact Hst | lia].
  - cbv zeta. cbn [read_each]. unfold bind.
    pose proof (get_district_data_stable P P_upsert env code (Some current_year)
                  w Hst) as H1.
    pose proof (get_district_data_api_length env code (Some current_year) w
                  (proj1 Hst)) as H2.
    destruct (get_district_data_returns env code (Some current_year) w)
      as [o Ho].
    destruct (get_district_data env code (Some current_year) w) as [o' w1].
    cbn [fst snd] in *. subst o'.
    destruct o as [f|];
      match goal with
      | |- context [read_each env rest current_year ?a ?b w1] =>
          destruct (IH a b w1 H1) as [H3 H4]
      end;
      (split; [exact H3 | cbn [length]; lia]).
Qed.

(** A comparison acts on the store as the reads it is made of: from a clean
    session it leaves a clean session and at most one Record per key, and it
    invokes the adapter at most once per district requested. *)
Theorem comparison_keeps_store_consistent
    (env : Env) (district_codes : list string) (year : option Z) (w : World) :
  session w = store w ->
  unique_keys (district_data (store w)) ->
  let w' := snd (compare_districts env district_codes year w) in
  session w' = store w' /\
  unique_keys (district_data (store w')) /\
  (length (api_calls w') <= length district_codes + length (api_calls w))%nat.
Proof.
  intros Hs Hu w'. subst w'.
  unfold compare_districts, try_except, bind.
  rewrite current_year_of_spec. unfold datetime_now.
  destruct (after_year_frame year w) as [F1 [F2 [_ F4]]].
  match goal with
  | |- context [read_each env district_codes ?cy [] [] ?w0] =>
      assert (Hst : stable unique_keys w0)
        by (split; cbn [session store]; [congruence | rewrite F1; exact Hu]);
      destruct (read_each_stable unique_keys env sample_upsert_unique
                  district_codes cy [] [] w0 Hst) as [[H1 H2] H3];
      destruct (read_each_spec env district_codes cy [] [] w0)
        as [dd [ds [E _]]];
      [split; [constructor | intros c0; reflexivity]|];
      destruct (read_each env district_codes cy [] [] w0) as [o w1]
  end.
  cbn [fst snd api_calls] in *. subst o. rewrite F4 in H3.
  cbn [fst]. destruct dd; cbn [snd]; auto.
Qed.

Lemma comparison_keeps_store_consistent_witness :
  session one_record_world = store one_record_world /\
  unique_keys (district_data (store one_record_world)) /\
  unique_keys
    (district_data
       (store (snd (compare_districts reliable_env ["AP001"; "BR001"]%string
                      (Some 2024) one_record_world)))).
Proof.
  assert (U : unique_keys (district_data (store one_record_world))).
  { vm_compute. constructor; [intros []|constructor]. }
  split; [reflexivity|]. split; [exact U|].
  apply (comparison_keeps_store_consistent reliable_env
           ["AP001"; "BR001"]%string (Some 2024) one_record_world eq_refl U).
Defined.

(** ** The sample payload of the adapter *)












